(** * Pet Care Assistant ([main.py]): a shallow embedding and its properties

    The program is a Streamlit form.  It builds prompts from a pet profile,
    sends them to a chat-completion API, shows the answers, renders a PDF
    report and appends the profile to a JSON log ([pet_data.json]).

    The Python code is embedded function by function, under the source's
    names:

    - values are Python values ([pyval]); a [dict] is an association list
      in insertion order; the profile dictionary [pet_info] is an object on a
      heap, passed by reference, because [save_pet_data] writes into it;
    - a computation ([M]) takes a world and gives back a value or a raised
      exception, and the next world; the world holds the heap, the files,
      and the trace of the calls made on Streamlit, the API client, reportlab
      and the file system;
    - f-strings are lists of literal and formatted segments, with the
      literals copied from the source character by character (text is kept
      as UTF-8 bytes);
    - what lies outside the repository is a parameter ([env]): the answers
      of the remote API, the clock, how the interpreter prints a float and
      quotes a string, which texts reportlab refuses as paragraph markup, its
      rendering of a story into bytes, which values pandas refuses to build
      a frame from, base64;
    - a file is held as the value its text parses to, or as text that is not
      JSON; the coroutines are run to completion one after the other by
      [run_until_complete], so [await] is sequencing.

    The definitions come first, then the lemmas about them, then the
    properties of the specification, each marked with its number. *)

From Stdlib Require Import String Ascii ZArith List Bool Lia DecimalString.
From Stdlib Require Import Floats.PrimFloat.
From stdpp Require Import base option list gmap strings.

#[local] Set Warnings "-register-all".
#[local] Open Scope Z_scope.
#[local] Open Scope nat_scope.

(** ** Python values *)

(** The values that flow through the program: what the form widgets return
    ([str], [float]) and what [json.load] can produce.  A [dict] keeps its
    insertion order (the order [items()] and [json.dump] follow), so it is an
    association list whose keys are kept unique by [dict_set]. *)
Inductive pyval : Type :=
  | VNone
  | VBool (b : bool)
  | VInt (z : Z)
  | VFloat (f : float)
  | VStr (s : string)
  | VList (l : list pyval)
  | VDict (d : list (string * pyval)).

Abbreviation pydict := (list (string * pyval)).

(** [d.get(k)]: the value bound to [k], if any. *)
Fixpoint dict_get (k : string) (d : pydict) : option pyval :=
  match d with
  | [] => None
  | (k', v) :: d' => if String.eqb k k' then Some v else dict_get k d'
  end.

(** [d[k] = v]: an existing key keeps its position, a new key goes last. *)
Fixpoint dict_set (k : string) (v : pyval) (d : pydict) : pydict :=
  match d with
  | [] => [(k, v)]
  | (k', v') :: d' =>
      if String.eqb k k' then (k, v) :: d' else (k', v') :: dict_set k v d'
  end.

(** Python truthiness, as [if x], [x or y] and [x and y] test it. *)
Definition truthy (v : pyval) : bool :=
  match v with
  | VNone => false
  | VBool b => b
  | VInt z => negb (Z.eqb z 0)
  | VFloat f => negb (PrimFloat.eqb f 0%float)
  | VStr s => negb (String.eqb s "")
  | VList l => negb (Nat.eqb (length l) 0)
  | VDict d => negb (Nat.eqb (length d) 0)
  end.

(** [a or b] *)
Definition py_or (a b : pyval) : pyval := if truthy a then a else b.

(** Truthiness of an [Optional[str]]: [None] and the empty string are false. *)
Definition truthy_opt (r : option string) : bool :=
  match r with
  | Some s => truthy (VStr s)
  | None => false
  end.

(** ** Exceptions *)

Inductive exn_class : Type :=
  (* raised by the groq client *)
  | APIConnectionError | APITimeoutError | AuthenticationError | RateLimitError
  | APIStatusError
  (* built-in subclasses of [Exception] *)
  | IndexError | KeyError | TypeError | AttributeError | ValueError
  | JSONDecodeError | FileNotFoundError | OtherException (name : string)
  (* subclasses of [BaseException] only *)
  | KeyboardInterrupt | SystemExit | CancelledError.

(** An exception object: its class and [str(e)]. *)
Record exn : Type := Exn { exn_cls : exn_class; exn_str : string }.

(** [isinstance(e, Exception)], what [except Exception] tests. *)
Definition isinstance_Exception (e : exn) : bool :=
  match exn_cls e with
  | KeyboardInterrupt | SystemExit | CancelledError => false
  | _ => true
  end.

(** The result of evaluating an expression: a value or a raised exception. *)
Inductive outcome (A : Type) : Type :=
  | Ok (a : A)
  | Raise (e : exn).
Arguments Ok {A} a.
Arguments Raise {A} e.

#[global] Instance outcome_ret : MRet outcome := fun A a => Ok a.
#[global] Instance outcome_bind : MBind outcome := fun A B f m =>
  match m with
  | Ok a => f a
  | Raise e => Raise e
  end.

(** ** Dates *)

Inductive month : Type :=
  | January | February | March | April | May | June
  | July | August | September | October | November | December.

Record datetime : Type := Datetime {
  year : nat; month_of : month; day : nat;
  hour : nat; minute : nat; second : nat
}.

Definition month_number (m : month) : nat :=
  match m with
  | January => 1 | February => 2 | March => 3 | April => 4
  | May => 5 | June => 6 | July => 7 | August => 8
  | September => 9 | October => 10 | November => 11 | December => 12
  end.

Definition month_name (m : month) : string :=
  match m with
  | January => "January" | February => "February" | March => "March"
  | April => "April" | May => "May" | June => "June" | July => "July"
  | August => "August" | September => "September" | October => "October"
  | November => "November" | December => "December"
  end.

Definition nat_str (n : nat) : string := NilZero.string_of_uint (Nat.to_uint n).
Definition Z_str (z : Z) : string := NilZero.string_of_int (Z.to_int z).

Fixpoint zeros (n : nat) : string :=
  match n with
  | O => ""
  | S n' => String "0" (zeros n')
  end.

(** The decimal numeral of [n], zero-padded on the left to [width] digits. *)
Definition zfill (width n : nat) : string :=
  let s := nat_str n in zeros (width - String.length s) +:+ s.

(** One [strftime] directive (the C locale), for the directives of a date
    and time of day; any other is left as it is written. *)
Definition directive (c : ascii) (t : datetime) : string :=
  if Ascii.eqb c "Y" then zfill 4 (year t)
  else if Ascii.eqb c "m" then zfill 2 (month_number (month_of t))
  else if Ascii.eqb c "d" then zfill 2 (day t)
  else if Ascii.eqb c "H" then zfill 2 (hour t)
  else if Ascii.eqb c "M" then zfill 2 (minute t)
  else if Ascii.eqb c "S" then zfill 2 (second t)
  else if Ascii.eqb c "B" then month_name (month_of t)
  else if Ascii.eqb c "%" then "%"
  else String "%" (String c "").

(** [t.strftime(fmt)] *)
Fixpoint strftime (fmt : string) (t : datetime) : string :=
  match fmt with
  | "" => ""
  | String c rest =>
      if Ascii.eqb c "%" then
        match rest with
        | String d rest' => directive d t +:+ strftime rest' t
        | "" => "%"
        end
      else String c (strftime rest t)
  end.

(** ** The report's flowables (reportlab) *)

Inductive style : Type :=
  | Heading1 | Heading2 | Normal | Italic
  | ParagraphStyle (name : string) (parent : style) (fontSize spaceAfter : nat).

Inductive flowable : Type :=
  | Paragraph (text : string) (st : style)
  | Spacer (width height : nat).

(** ** The chat-completion API (groq) *)

Record chat_message : Type := ChatMessage { role : string; content : string }.

Record request : Type := Request {
  messages : list chat_message;
  model : string;
  temperature : float;
  max_tokens : Z
}.

(** The response object, as far as the program reads it:
    [chat_completion.choices[0].message.content]. *)
Record completion_message : Type := CompletionMessage { msg_content : option string }.
Record choice : Type := Choice { message : completion_message }.
Record chat_completion : Type := ChatCompletion { choices : list choice }.

(** ** The world the program runs in *)

(** A file on disk, as [json.load] sees it: text that is not a JSON document
    (the empty file, a truncated write), or a document, held as the value it
    parses to.  [json.dump] followed by [json.load] gives back the same
    value for the values of [pyval]. *)
Inductive file_content : Type :=
  | NotJson (text : string)
  | Document (v : pyval).

(** The calls the program makes on Streamlit, the API client, reportlab and
    the file system, in the order it makes them. *)
Inductive event : Type :=
  | StTitle (body : string)
  | StHeader (body : string)
  | StSpinner (text : string)
  | StMarkdown (body : string) (unsafe_allow_html : bool)
  | StError (body : string)
  | StSuccess (body : string)
  | StDataframe (records : pyval)
  | GroqCreate (req : request)
  | DocBuild (story : list flowable)
  | FileWrite (filename : string) (doc : pyval).

Abbreviation loc := positive.

Record world : Type := World {
  heap : gmap loc pydict;              (* the dict objects, by reference *)
  files : gmap string file_content;    (* the working directory *)
  api_calls : nat;                     (* requests sent so far *)
  clock_reads : nat;                   (* readings of the clock so far *)
  trace : list event
}.

Definition set_heap (h : gmap loc pydict) (w : world) : world :=
  World h (files w) (api_calls w) (clock_reads w) (trace w).
Definition set_files (fs : gmap string file_content) (w : world) : world :=
  World (heap w) fs (api_calls w) (clock_reads w) (trace w).
Definition log_event (ev : event) (w : world) : world :=
  World (heap w) (files w) (api_calls w) (clock_reads w) (trace w ++ [ev]).

(** What lies outside the repository: the interpreter's formatting of floats
    and its [repr] of strings, the remote API, the clock, reportlab's
    paragraph parser and renderer, pandas and base64.

    [markup_error text] is the message of the [ValueError] that reportlab's
    [Paragraph(text, style)] raises when [text] is not well-formed markup
    (an unclosed tag, say), and [None] when the paragraph is constructed.
    [dataframe_error data] is the exception [pd.DataFrame(data)] raises, and
    [None] when the frame is built. *)
Record env : Type := Env {
  float_repr : float -> string;
  str_repr : string -> string;
  groq_create : nat -> request -> outcome chat_completion;
  clock : nat -> datetime;
  markup_error : string -> option string;
  doc_build : list flowable -> string;
  dataframe_error : pyval -> option exn;
  b64encode : string -> string
}.

(** Computations: they read and change the world and may raise. *)
Definition M (A : Type) : Type := world -> outcome A * world.

#[global] Instance M_ret : MRet M := fun A a w => (Ok a, w).
#[global] Instance M_bind : MBind M := fun A B f m w =>
  match m w with
  | (Ok a, w') => f a w'
  | (Raise e, w') => (Raise e, w')
  end.

Definition lift {A : Type} (o : outcome A) : M A := fun w => (o, w).
Definition emit (ev : event) : M unit := fun w => (Ok tt, log_event ev w).

(** [try: body  except Exception as e: handler(e)] *)
Definition try_except_Exception {A : Type} (body : M A) (handler : exn -> M A) : M A :=
  fun w =>
    match body w with
    | (Ok a, w') => (Ok a, w')
    | (Raise e, w') =>
        if isinstance_Exception e then handler e w' else (Raise e, w')
    end.

(** An f-string is a sequence of literal text and formatted values. *)
Inductive segment : Type :=
  | Lit (s : string)
  | Fmt (v : pyval).

Definition dquote : string := String "034" "".

(** [l[i]] on a list *)
Definition list_getitem {A : Type} (l : list A) (i : nat) : outcome A :=
  match l !! i with
  | Some x => Ok x
  | None => Raise (Exn IndexError "list index out of range")
  end.

(** The items of a list under construction: values, or references to dict
    objects that live on the heap. *)
Inductive item : Type :=
  | Val (v : pyval)
  | Ref (l : loc).

(** The form: what the widgets return on one run of the script. *)
Inductive Species : Type := Dog | Cat.

Definition species_str (s : Species) : string :=
  match s with
  | Dog => "Dog"
  | Cat => "Cat"
  end.

Record widgets : Type := Widgets {
  uploaded_file : option file_content;
  pet_name : string;
  pet_type : Species;
  breed_input : string;
  age_input : float;
  weight_input : float;
  health_conditions_input : string;
  favorite_foods_input : string;
  allergies_input : string;
  care_button : bool;
  emergency_button : bool;
  training_button : bool;
  seasonal_button : bool;
  save_button : bool;
  analysis_button : bool
}.

(** The pet profile of the specification. *)
Record PetProfile : Type := Profile {
  name : string;
  species : Species;
  breed : string;
  age : float;
  weight : float;
  health_conditions : string;
  favorite_foods : string;
  allergies : string;
  timestamp : string
}.

(** The dictionary [main] builds for a profile (lines 334-344). *)
Definition pet_info_dict (p : PetProfile) : pydict :=
  [ ("name", VStr (name p));
    ("type", VStr (species_str (species p)));
    ("breed", VStr (breed p));
    ("age", VFloat (age p));
    ("weight", VFloat (weight p));
    ("health_conditions", VStr (health_conditions p));
    ("favorite_foods", VStr (favorite_foods p));
    ("allergies", VStr (allergies p));
    ("timestamp", VStr (timestamp p)) ].

Definition with_timestamp (ts : string) (p : PetProfile) : PetProfile :=
  Profile (name p) (species p) (breed p) (age p) (weight p) (health_conditions p)
          (favorite_foods p) (allergies p) ts.

Definition with_health_conditions (text : string) (p : PetProfile) : PetProfile :=
  Profile (name p) (species p) (breed p) (age p) (weight p) text
          (favorite_foods p) (allergies p) (timestamp p).

Definition with_allergies (text : string) (p : PetProfile) : PetProfile :=
  Profile (name p) (species p) (breed p) (age p) (weight p) (health_conditions p)
          (favorite_foods p) text (timestamp p).

(** ** Searching text *)

(** The line feed. *)
Definition nl : string := String "010" "".

(** [s.startswith(p)] *)
Fixpoint starts_with (p s : string) : bool :=
  match p, s with
  | "", _ => true
  | String a p', String b s' => Ascii.eqb a b && starts_with p' s'
  | String _ _, "" => false
  end.

(** [sub in s] *)
Fixpoint contains (sub s : string) : bool :=
  starts_with sub s ||
  match s with
  | "" => false
  | String _ s' => contains sub s'
  end.

Fixpoint string_drop (n : nat) (s : string) : string :=
  match n, s with
  | S n', String _ s' => string_drop n' s'
  | _, _ => s
  end.

Fixpoint string_take (n : nat) (s : string) : string :=
  match n, s with
  | S n', String c s' => String c (string_take n' s')
  | _, _ => ""
  end.

(** [s.endswith(p)] *)
Definition ends_with (p s : string) : bool :=
  String.eqb (string_drop (String.length s - String.length p) s) p.

(** [sub] occurs in [s]: some text before it and some text after it make [s]. *)
Definition occurs_in (sub s : string) : Prop :=
  exists before after, s = before +:+ sub +:+ after.

(** ** Reading a report and a trace *)

(** The texts of the story's section titles, in order. *)
Fixpoint headings (story : list flowable) : list string :=
  match story with
  | [] => []
  | Paragraph text Heading2 :: rest => text :: headings rest
  | _ :: rest => headings rest
  end.

(** The titled sections of a story: each [Heading2] paragraph that is
    followed by a [Normal] paragraph, with that paragraph's text. *)
Fixpoint titled_sections (story : list flowable) : list (string * string) :=
  match story with
  | [] => []
  | Paragraph title Heading2 :: rest =>
      match rest with
      | Paragraph body Normal :: _ => (title, body) :: titled_sections rest
      | _ => titled_sections rest
      end
  | _ :: rest => titled_sections rest
  end.

(** The texts of the story's paragraphs, in order. *)
Fixpoint paragraph_texts (story : list flowable) : list string :=
  match story with
  | [] => []
  | Paragraph text _ :: rest => text :: paragraph_texts rest
  | Spacer _ _ :: rest => paragraph_texts rest
  end.

(** A document export (the build of the report, the HTML download link) or
    a write to a file. *)
Definition exports_or_writes (ev : event) : bool :=
  match ev with
  | DocBuild _ | FileWrite _ _ | StMarkdown _ true => true
  | _ => false
  end.

(** How a call of the API can fail: the client raises, or the response has
    no first choice to read. *)
Inductive api_failure : outcome chat_completion -> exn -> Prop :=
  | failure_raised (e : exn) :
      api_failure (Raise e) e
  | failure_malformed (c : chat_completion) :
      choices c = [] ->
      api_failure (Ok c) (Exn IndexError "list index out of range").

(** The records of the log file, when it holds a list. *)
Definition stored_records (w : world) : option (list pyval) :=
  match files w !! "pet_data.json" with
  | Some (Document (VList l)) => Some l
  | _ => None
  end.

(** The log a store holds for [save_pet_data]: no file is the empty log. *)
Definition log_of (w : world) : option (list pyval) :=
  match files w !! "pet_data.json" with
  | None => Some []
  | Some (Document (VList l)) => Some l
  | Some _ => None
  end.

(** The advice categories and their prompt templates. *)
Inductive category : Type :=
  | Diet | Care | Emergency | Training | Seasonal | Comparison.

(** ** Sample data *)

Definition sample_float_repr (f : float) : string :=
  if PrimFloat.eqb f 3%float then "3.0"
  else if PrimFloat.eqb f 28%float then "28.0"
  else "0.0".

Definition sample_str_repr (s : string) : string := "'" +:+ s +:+ "'".

Definition sample_clock (n : nat) : datetime := Datetime 2024 March 5 14 7 (9 + n).

Definition reply (text : string) : chat_completion :=
  ChatCompletion [Choice (CompletionMessage (Some text))].

(** A paragraph parser that takes any text without a tag opener and refuses
    the rest (reportlab takes balanced tags as well). *)
Definition sample_markup_error (text : string) : option string :=
  if contains "<" text
  then Some "Parse error: saw </para> instead of expected </b>"
  else None.

Definition is_dict (v : pyval) : bool :=
  match v with
  | VDict _ => true
  | _ => false
  end.

(** A frame builder that takes a list of records; of a list with an item
    that is not a record it fails where pandas asks the item for its keys,
    and it refuses any other value (pandas takes more). *)
Definition sample_dataframe_error (data : pyval) : option exn :=
  match data with
  | VList items =>
      if forallb is_dict items then None
      else Some (Exn AttributeError "object has no attribute 'keys'")
  | _ => Some (Exn ValueError "DataFrame constructor not properly called!")
  end.

(** An environment whose API behaves as [api] says. *)
Definition sample_env (api : nat -> request -> outcome chat_completion) : env :=
  Env sample_float_repr sample_str_repr api sample_clock
      sample_markup_error (fun _ => "%PDF-1.4")
      sample_dataframe_error (fun _ => "JVBERi0xLjQ=").

(** Every call answers. *)
Definition api_up (n : nat) (req : request) : outcome chat_completion :=
  match n with
  | O => Ok (reply "Feed 300 g twice a day.")
  | _ => Ok (reply "Walk 45 minutes a day.")
  end.

(** Every call hits the rate limit. *)
Definition api_down (n : nat) (req : request) : outcome chat_completion :=
  Raise (Exn RateLimitError "Rate limit reached").

(** The first call answers, the second hits the rate limit. *)
Definition api_flaky (n : nat) (req : request) : outcome chat_completion :=
  match n with
  | O => Ok (reply "Feed 300 g twice a day.")
  | _ => Raise (Exn RateLimitError "Rate limit reached")
  end.

(** Every call answers, the first with a tag that is never closed. *)
Definition api_unclosed_tag (n : nat) (req : request) : outcome chat_completion :=
  match n with
  | O => Ok (reply "Feed <b>300 g twice a day.")
  | _ => Ok (reply "Walk 45 minutes a day.")
  end.

(** The response carries no choice. *)
Definition api_malformed (n : nat) (req : request) : outcome chat_completion :=
  Ok (ChatCompletion []).

Definition rex : PetProfile :=
  Profile "Rex" Dog "Labrador" 3%float 28%float "" "" "Chicken" "2024-03-05 14:07:08".

Definition rex_loc : loc := 1%positive.

(** Rex's dictionary on the heap, no log file yet. *)
Definition rex_world : world :=
  World {[ rex_loc := pet_info_dict rex ]} ∅ 0 0 [].

(** The same, with a log file that holds [text], which is not JSON. *)
Definition rex_world_with_text (text : string) : world :=
  World {[ rex_loc := pet_info_dict rex ]} {[ "pet_data.json" := NotJson text ]} 0 0 [].

(** The same, with a log file that holds the JSON document [doc]. *)
Definition rex_world_with_log (doc : pyval) : world :=
  World {[ rex_loc := pet_info_dict rex ]} {[ "pet_data.json" := Document doc ]} 0 0 [].

(** The form filled in for Rex with "Save Health Record" pressed. *)
Definition rex_form : widgets :=
  Widgets None "Rex" Dog "Labrador" 3%float 28%float "" "" "Chicken"
          false false false false true false.

(** Nothing on the heap, no file, nothing shown yet. *)
Definition fresh_world : world := World ∅ ∅ 0 0 [].

(** A form with no button pressed and no file uploaded. *)
Definition rex_form_idle : widgets :=
  Widgets None "Rex" Dog "Labrador" 3%float 28%float "" "" "Chicken"
          false false false false false false.

(** Rex under another name, with favourite foods filled in. *)
Definition rex_renamed : PetProfile :=
  Profile "Max" Dog "Labrador" 3%float 28%float "" "Salmon" "Chicken" "2023-11-20 08:00:00".

(** An uploaded record with a null health field and whole-number weight. *)
Definition sparse_record : pydict :=
  [ ("timestamp", VStr "2023-11-20 08:00:00");
    ("weight", VInt 27);
    ("health_conditions", VNone) ].

(** ** The program *)

Section Program.

Variable E : env.

(** *** Formatting *)

(** [repr(v)] *)
Fixpoint py_repr (v : pyval) : string :=
  match v with
  | VNone => "None"
  | VBool b => if b then "True" else "False"
  | VInt z => Z_str z
  | VFloat f => float_repr E f
  | VStr s => str_repr E s
  | VList l => "[" +:+ String.concat ", " (map py_repr l) +:+ "]"
  | VDict d =>
      "{" +:+ String.concat ", "
                (map (fun kv => str_repr E (fst kv) +:+ ": " +:+ py_repr (snd kv)) d)
          +:+ "}"
  end.

(** [str(v)], which is what [{v}] in an f-string inserts. *)
Definition py_str (v : pyval) : string :=
  match v with
  | VStr s => s
  | _ => py_repr v
  end.

Definition render (s : segment) : string :=
  match s with
  | Lit t => t
  | Fmt v => py_str v
  end.

Definition fstring (segs : list segment) : string :=
  fold_right (fun s acc => render s +:+ acc) "" segs.

(** [d[k]] on a dict *)
Definition getitem (d : pydict) (k : string) : outcome pyval :=
  match dict_get k d with
  | Some v => Ok v
  | None => Raise (Exn KeyError (str_repr E k))
  end.

(** [v[k]] with a string key on any value read from JSON *)
Definition subscript (v : pyval) (k : string) : outcome pyval :=
  match v with
  | VDict d => getitem d k
  | VList _ => Raise (Exn TypeError "list indices must be integers or slices, not str")
  | VStr _ => Raise (Exn TypeError "string indices must be integers")
  | _ => Raise (Exn TypeError "object is not subscriptable")
  end.

(** *** Primitive actions *)

Definition st_title (body : string) : M unit := emit (StTitle body).
Definition st_header (body : string) : M unit := emit (StHeader body).
Definition st_spinner (text : string) : M unit := emit (StSpinner text).
Definition st_markdown (body : string) (unsafe_allow_html : bool) : M unit :=
  emit (StMarkdown body unsafe_allow_html).
Definition st_error (body : string) : M unit := emit (StError body).
Definition st_success (body : string) : M unit := emit (StSuccess body).
Definition st_dataframe (records : pyval) : M unit := emit (StDataframe records).

(** Reading a dict object through its reference. *)
Definition deref (l : loc) : M pydict := fun w =>
  match heap w !! l with
  | Some d => (Ok d, w)
  | None => (Raise (Exn (OtherException "SystemError") "dangling reference"), w)
  end.

(** Replacing the content of the dict object at [l]. *)
Definition store (l : loc) (d : pydict) : M unit := fun w =>
  (Ok tt, set_heap (<[l := d]> (heap w)) w).

(** [obj[k] = v] on the dict object at [l] *)
Definition setitem (l : loc) (k : string) (v : pyval) : M unit :=
  d ← deref l;
  store l (dict_set k v d).

(** A dict display [{...}] creates a new object. *)
Definition new_dict (d : pydict) : M loc := fun w =>
  let l := fresh (dom (heap w)) in
  (Ok l, set_heap (<[l := d]> (heap w)) w).

(** [datetime.now()] *)
Definition datetime_now : M datetime := fun w =>
  (Ok (clock E (clock_reads w)),
   World (heap w) (files w) (api_calls w) (S (clock_reads w)) (trace w)).

(** [await groq_client.chat.completions.create(...)] *)
Definition groq_chat_completions_create (req : request) : M chat_completion := fun w =>
  (groq_create E (api_calls w) req,
   World (heap w) (files w) (S (api_calls w)) (clock_reads w) (trace w ++ [GroqCreate req])).

(** [os.path.exists(filename)] *)
Definition os_path_exists (filename : string) : M bool := fun w =>
  (Ok (bool_decide (is_Some (files w !! filename))), w).

(** [json.load] on the content of a file; the message is the one for text
    that does not start a JSON value, such as the empty text. *)
Definition json_load (f : file_content) : outcome pyval :=
  match f with
  | Document v => Ok v
  | NotJson _ => Raise (Exn JSONDecodeError "Expecting value: line 1 column 1 (char 0)")
  end.

(** [with open(filename, 'r') as f: json.load(f)] *)
Definition open_json_load (filename : string) : M pyval := fun w =>
  match files w !! filename with
  | Some f => (json_load f, w)
  | None => (Raise (Exn FileNotFoundError filename), w)
  end.

(** The value a list item stands for when it is serialised. *)
Definition resolve (x : item) : M pyval :=
  match x with
  | Val v => mret v
  | Ref l => d ← deref l; mret (VDict d)
  end.

Fixpoint resolve_all (xs : list item) : M (list pyval) :=
  match xs with
  | [] => mret []
  | x :: xs' => v ← resolve x; vs ← resolve_all xs'; mret (v :: vs)
  end.

(** [with open(filename, 'w') as f: json.dump(data, f)] *)
Definition write_document (filename : string) (doc : pyval) : M unit := fun w =>
  (Ok tt, log_event (FileWrite filename doc)
            (set_files (<[filename := Document doc]> (files w)) w)).

Definition open_json_dump (data : list item) (filename : string) : M unit :=
  vs ← resolve_all data;
  write_document filename (VList vs).

(** [data.append(x)], where [data] came from [json.load] or is [[]] *)
Definition append (data : pyval) (x : loc) : outcome (list item) :=
  match data with
  | VList l => Ok (map Val l ++ [Ref x])
  | _ => Raise (Exn AttributeError "object has no attribute 'append'")
  end.

(** [doc.build(story)] into the buffer; the result is the buffer's bytes. *)
Definition doc_build_into_buffer (story : list flowable) : M string := fun w =>
  (Ok (doc_build E story), log_event (DocBuild story) w).

(** *** The recommendation client (lines 23-52) *)

Definition system_prompt : string :=
  "You are a veterinary expert specializing in precise, evidence-based pet care recommendations. 
                    Your responses must be:
                    1. Highly specific with exact measurements, durations, and frequencies
                    2. Tailored to the exact breed, age, and health conditions
                    3. Based on current veterinary research
                    4. Formatted in clear bullet points
                    5. Free of generic advice
                    
                    Never provide general statements - each point must include specific metrics, measurements, or actionable steps.".

(** The arguments of [chat.completions.create] (lines 27-47). *)
Definition chat_request (prompt : string) : request :=
  Request
    [ ChatMessage "system" system_prompt;
      ChatMessage "user" prompt ]
    "mixtral-8x7b-32768"
    0.5%float
    500%Z.

Definition generate_recommendation (prompt : string) : M (option string) :=
  try_except_Exception
    (chat_completion ← groq_chat_completions_create (chat_request prompt);
     first ← lift (list_getitem (choices chat_completion) 0);
     mret (msg_content (message first)))
    (fun e =>
       st_error (fstring [Lit "Error generating recommendation: ";
      Fmt (VStr (exn_str e))]);;
       mret None).

(** *** The prompt builders *)

(** The f-string of [generate_diet_recommendation] (lines 56-101). *)
Definition diet_prompt (pet_info : pydict) : outcome string :=
  type_ ← getitem pet_info "type";
  breed ← getitem pet_info "breed";
  age ← getitem pet_info "age";
  weight ← getitem pet_info "weight";
  health_conditions ← getitem pet_info "health_conditions";
  allergies ← getitem pet_info "allergies";
  mret (fstring [Lit "
    Generate highly specific diet recommendations for:
    Species: ";
      Fmt (type_);
      Lit "
    Breed: ";
      Fmt (breed);
      Lit "
    Age: ";
      Fmt (age);
      Lit " years
    Weight: ";
      Fmt (weight);
      Lit " kg
    Health Conditions: ";
      Fmt (py_or health_conditions (VStr "None"));
      Lit "
    Allergies: ";
      Fmt (py_or allergies (VStr "None"));
      Lit "
    
    Provide exact measurements and specific products where applicable. Format your response precisely as follows:

    • Daily Caloric Requirements:
      - Exact calories: [number] kcal/day
      - Divided into [number] meals
      - Calorie distribution: [% per meal]
    
    • Macronutrient Breakdown:
      - Protein: [exact %]
      - Fats: [exact %]
      - Carbohydrates: [exact %]
    
    • Recommended Diet:
      - Commercial Foods:
        ∘ [specific brand and product name]
        ∘ [exact portion size in grams]
      - Fresh Foods:
        ∘ [specific ingredient]
        ∘ [exact portion in grams]
    
    • Feeding Schedule:
      - Morning [exact time]: [exact amount in grams]
      - Evening [exact time]: [exact amount in grams]
    
    • Required Supplements:
      - [specific supplement name]
      - [exact dosage]
      - [frequency]
    
    • Foods to Strictly Avoid:
      - [specific food]
      - [reason for avoiding]
    
    • Special Considerations:
      - [specific consideration based on breed/health]
      - [actionable recommendation]
    "]).

Definition generate_diet_recommendation (pet_info : loc) : M (option string) :=
  d ← deref pet_info;
  prompt ← lift (diet_prompt d);
  generate_recommendation prompt.

(** The f-string of [generate_care_recommendation] (lines 106-164). *)
Definition care_prompt (pet_info : pydict) : outcome string :=
  type_ ← getitem pet_info "type";
  breed ← getitem pet_info "breed";
  age ← getitem pet_info "age";
  weight ← getitem pet_info "weight";
  health_conditions ← getitem pet_info "health_conditions";
  mret (fstring [Lit "
    Generate highly specific care recommendations for:
    Species: ";
      Fmt (type_);
      Lit "
    Breed: ";
      Fmt (breed);
      Lit "
    Age: ";
      Fmt (age);
      Lit " years
    Weight: ";
      Fmt (weight);
      Lit " kg
    Health Conditions: ";
      Fmt (py_or health_conditions (VStr "None"));
      Lit "
    
    Provide exact durations, frequencies, and specific products where applicable. Format your response precisely as follows:

    • Exercise Requirements:
      - Daily Duration: [exact minutes]
      - Activity Breakdown:
        ∘ [specific exercise type]: [exact minutes]
        ∘ [intensity level]: [specific indicators]
      - Rest Periods: [exact duration]
    
    • Grooming Protocol:
      - Brushing:
        ∘ [specific brush type]
        ∘ [exact frequency]
        ∘ [technique description]
      - Bathing:
        ∘ [specific shampoo type]
        ∘ [exact frequency]
        ∘ [water temperature]
      - Nail Care:
        ∘ [specific tool]
        ∘ [exact frequency]
    
    • Health Monitoring:
      - Vital Signs:
        ∘ Normal Temperature Range: [exact range]
        ∘ Normal Heart Rate: [exact range]
        ∘ Normal Respiratory Rate: [exact range]
      - Regular Checks:
        ∘ [specific check]
        ∘ [exact frequency]
        ∘ [warning signs]
    
    • Behavioral Monitoring:
      - Key Indicators:
        ∘ [specific behavior]
        ∘ [normal frequency/duration]
        ∘ [warning signs]
    
    • Preventive Care Schedule:
      - Vaccinations:
        ∘ [specific vaccine]
        ∘ [exact timing]
      - Parasite Prevention:
        ∘ [specific product]
        ∘ [exact dosage and frequency]
    
    • Environment Requirements:
      - Temperature: [exact range]
      - Exercise Area: [specific dimensions]
      - Rest Area: [specific requirements]
    "]).

Definition generate_care_recommendation (pet_info : loc) : M (option string) :=
  d ← deref pet_info;
  prompt ← lift (care_prompt d);
  generate_recommendation prompt.

(** The f-string of [generate_emergency_guide] (lines 169-180). *)
Definition emergency_prompt (pet_info : pydict) : outcome string :=
  type_ ← getitem pet_info "type";
  breed ← getitem pet_info "breed";
  mret (fstring [Lit "
    Provide emergency care guidelines for a ";
      Fmt (type_);
      Lit ", ";
      Fmt (breed);
      Lit ".
    Include common emergency situations and immediate actions to take before reaching vet.
    
    Format as bullet points:
    • Signs of Emergency:
      - [sign 1]
    • Immediate Actions:
      - [action 1]
    • When to Contact Vet:
      - [situation 1]
    "]).

Definition generate_emergency_guide (pet_info : loc) : M (option string) :=
  d ← deref pet_info;
  prompt ← lift (emergency_prompt d);
  generate_recommendation prompt.

(** The f-string of [generate_training_tips] (lines 185-196). *)
Definition training_prompt (pet_info : pydict) : outcome string :=
  type_ ← getitem pet_info "type";
  breed ← getitem pet_info "breed";
  age ← getitem pet_info "age";
  mret (fstring [Lit "
    Provide training tips for a ";
      Fmt (type_);
      Lit ", ";
      Fmt (breed);
      Lit ", ";
      Fmt (age);
      Lit " years old.
    Focus on essential commands and behavior training.
    
    Format as bullet points:
    • Basic Commands:
      - [command]: [how to train]
    • Behavior Training:
      - [behavior]: [training method]
    • Common Mistakes:
      - [mistake to avoid]
    "]).

Definition generate_training_tips (pet_info : loc) : M (option string) :=
  d ← deref pet_info;
  prompt ← lift (training_prompt d);
  generate_recommendation prompt.

(** The f-string of [generate_seasonal_care] (lines 202-213). *)
Definition seasonal_prompt (current_month : string) (pet_info : pydict) : outcome string :=
  type_ ← getitem pet_info "type";
  breed ← getitem pet_info "breed";
  mret (fstring [Lit "
    Provide seasonal care tips for ";
      Fmt (VStr current_month);
      Lit " for a ";
      Fmt (type_);
      Lit ", ";
      Fmt (breed);
      Lit ".
    Include specific seasonal challenges and preparations.
    
    Format as bullet points:
    • Seasonal Risks:
      - [risk 1]
    • Preventive Measures:
      - [measure 1]
    • Essential Items:
      - [item 1]
    "]).

Definition generate_seasonal_care (pet_info : loc) : M (option string) :=
  now ← datetime_now;
  let current_month := strftime "%B" now in
  d ← deref pet_info;
  prompt ← lift (seasonal_prompt current_month d);
  generate_recommendation prompt.

(** *** The report renderer (lines 216-268) *)

(** The report is the story handed to [doc.build].  reportlab reads a
    paragraph's text as markup when the paragraph is constructed, and
    refuses text that is not well formed; how it lays the story out on pages
    is the library's part ([doc_build]). *)

(** [Paragraph(text, style)] *)
Definition Paragraph_init (text : string) (st : style) : outcome flowable :=
  match markup_error E text with
  | None => Ok (Paragraph text st)
  | Some msg => Raise (Exn ValueError msg)
  end.

Definition title_style : style := ParagraphStyle "CustomTitle" Heading1 24 30.

(** The profile summary block (lines 234-241). *)
Definition pet_info_text (pet_info : pydict) : outcome string :=
  type_ ← getitem pet_info "type";
  breed ← getitem pet_info "breed";
  age ← getitem pet_info "age";
  weight ← getitem pet_info "weight";
  health_conditions ← getitem pet_info "health_conditions";
  allergies ← getitem pet_info "allergies";
  mret (fstring [Lit "
    Type: ";
      Fmt (type_);
      Lit "
    Breed: ";
      Fmt (breed);
      Lit "
    Age: ";
      Fmt (age);
      Lit " years
    Weight: ";
      Fmt (weight);
      Lit " kg
    Health Conditions: ";
      Fmt (py_or health_conditions (VStr "None"));
      Lit "
    Allergies: ";
      Fmt (py_or allergies (VStr "None"));
      Lit "
    "]).

Definition disclaimer : string :=
  "
    DISCLAIMER: This report was generated using artificial intelligence. While the recommendations are based on veterinary knowledge, they should not replace professional veterinary advice. Always consult with a qualified veterinarian for your pet's specific needs.
    ".

(** One turn of the loop over [recommendations.items()] (lines 247-249). *)
Definition add_section (story : list flowable) (entry : string * string)
  : outcome (list flowable) :=
  let '(title, content) := entry in
  heading ← Paragraph_init title Heading2;
  let story := story ++ [heading] in
  body ← Paragraph_init content Normal;
  let story := story ++ [body] in
  mret (story ++ [Spacer 1 12]).

(** The loop: it stops at the first paragraph that is refused. *)
Fixpoint add_sections (recommendations : list (string * string)) (story : list flowable)
  : outcome (list flowable) :=
  match recommendations with
  | [] => Ok story
  | entry :: rest =>
      story ← add_section story entry;
      add_sections rest story
  end.

Definition create_pdf (pet_info : loc) (recommendations : list (string * string)) : M string :=
  d ← deref pet_info;
  let story := [] in
  name ← lift (getitem d "name");
  title ← lift (Paragraph_init (fstring [Lit "Pet Care Report for ";
      Fmt (name)]) title_style);
  let story := story ++ [title] in
  heading ← lift (Paragraph_init "Pet Information" Heading2);
  let story := story ++ [heading] in
  text ← lift (pet_info_text d);
  summary ← lift (Paragraph_init text Normal);
  let story := story ++ [summary] in
  let story := story ++ [Spacer 1 12] in
  story ← lift (add_sections recommendations story);
  now ← datetime_now;
  let timestamp := strftime "%Y-%m-%d %H:%M:%S" now in
  generated ← lift (Paragraph_init (fstring [Lit "Report Generated: ";
      Fmt (VStr timestamp)]) Normal);
  let story := story ++ [generated] in
  let story := story ++ [Spacer 1 12] in
  closing ← lift (Paragraph_init disclaimer Italic);
  let story := story ++ [closing] in
  doc_build_into_buffer story.

Definition get_download_link (buffer : string) : string :=
  let b64 := b64encode E buffer in
  fstring [Lit ("<a href=" +:+ dquote +:+ "data:application/pdf;base64,");
      Fmt (VStr b64);
      Lit ("" +:+ dquote +:+ " download=" +:+ dquote +:+ "pet_care_report.pdf" +:+ dquote +:+ ">Download PDF Report</a>")].

(** *** The comparison prompt (lines 270-288) *)

Definition comparison_prompt (current_pet_info : pydict) (previous_pet_info : pyval)
  : outcome string :=
  prev_timestamp ← subscript previous_pet_info "timestamp";
  prev_weight ← subscript previous_pet_info "weight";
  prev_health ← subscript previous_pet_info "health_conditions";
  cur_weight ← getitem current_pet_info "weight";
  cur_health ← getitem current_pet_info "health_conditions";
  mret (fstring [Lit "
    Compare the following pet information and provide specific recommendations based on changes:
    
    Previous Report (";
      Fmt (prev_timestamp);
      Lit "):
    Weight: ";
      Fmt (prev_weight);
      Lit " kg
    Health: ";
      Fmt (py_or prev_health (VStr "None"));
      Lit "
    
    Current Information:
    Weight: ";
      Fmt (cur_weight);
      Lit " kg
    Health: ";
      Fmt (py_or cur_health (VStr "None"));
      Lit "
    
    Format your response as bullet points highlighting:
    • Notable Changes
    • Recommendations Based on Changes
    • Areas to Monitor
    "]).

Definition analyze_previous_report (current_pet_info : loc) (previous_pet_info : pyval)
  : M (option string) :=
  d ← deref current_pet_info;
  prompt ← lift (comparison_prompt d previous_pet_info);
  generate_recommendation prompt.

(** *** The record store (lines 290-303) *)

Definition save_pet_data (pet_data : loc) : M unit :=
  let filename := "pet_data.json" in
  found ← os_path_exists filename;
  data ← (if found : bool then open_json_load filename else mret (VList []));
  now ← datetime_now;
  setitem pet_data "timestamp" (VStr (strftime "%Y-%m-%d %H:%M:%S" now));;
  data ← lift (append data pet_data);
  open_json_dump data filename.

(** *** The panels of [main] (lines 346-436) *)

(** Each panel takes the state of its button.  The event loop a panel
    creates runs one coroutine at a time to its end, so the two calls of the
    Care Guide panel happen in order. *)

Definition care_tab (clicked : bool) (pet_info : loc) : M unit :=
  if clicked then
    st_spinner "Generating comprehensive care guide...";;
    diet_rec ← generate_diet_recommendation pet_info;
    care_rec ← generate_care_recommendation pet_info;
    match diet_rec, care_rec with
    | Some diet, Some care =>
        if truthy (VStr diet) && truthy (VStr care) then
          let recommendations :=
            [ ("Diet Recommendations", diet);
              ("Care Recommendations", care) ] in
          st_header "🍽️ Diet Recommendations";;
          st_markdown diet false;;
          st_header "💝 Care Recommendations";;
          st_markdown care false;;
          pdf_buffer ← create_pdf pet_info recommendations;
          st_markdown (get_download_link pdf_buffer) true;;
          save_pet_data pet_info
        else mret tt
    | _, _ => mret tt
    end
  else mret tt.

Definition emergency_tab (clicked : bool) (pet_info : loc) : M unit :=
  if clicked then
    st_spinner "Generating emergency care guide...";;
    emergency_rec ← generate_emergency_guide pet_info;
    match emergency_rec with
    | Some rec =>
        if truthy (VStr rec) then
          st_header "🚨 Emergency Care Guide";;
          st_markdown rec false;;
          st_markdown "---" false;;
          st_markdown "### 📞 Emergency Contacts" false;;
          st_markdown "• Clinic Hours: 24/7" false;;
          st_markdown "• Emergency Number: [Your Clinic Phone]" false;;
          st_markdown "• After Hours Care: Available" false
        else mret tt
    | None => mret tt
    end
  else mret tt.

Definition training_tab (clicked : bool) (pet_info : loc) : M unit :=
  if clicked then
    st_spinner "Generating training recommendations...";;
    training_rec ← generate_training_tips pet_info;
    match training_rec with
    | Some rec =>
        if truthy (VStr rec) then
          st_header "🎓 Training Guide";;
          st_markdown rec false
        else mret tt
    | None => mret tt
    end
  else mret tt.

Definition seasonal_tab (clicked : bool) (pet_info : loc) : M unit :=
  if clicked then
    st_spinner "Generating seasonal care guide...";;
    seasonal_rec ← generate_seasonal_care pet_info;
    match seasonal_rec with
    | Some rec =>
        if truthy (VStr rec) then
          st_header "🌤️ Seasonal Care Guide";;
          st_markdown rec false
        else mret tt
    | None => mret tt
    end
  else mret tt.

(** [pd.DataFrame(data)]: pandas builds a frame from the value or raises;
    a frame is held as the records it was built from. *)
Definition pd_DataFrame (data : pyval) : outcome pyval :=
  match dataframe_error E data with
  | None => Ok data
  | Some e => Raise e
  end.

(** The stored records as the "Health Records" panel reads and shows them
    (lines 420-424). *)
Definition show_records : M unit :=
  found ← os_path_exists "pet_data.json";
  if found : bool then
    records ← open_json_load "pet_data.json";
    if truthy records then
      frame ← lift (pd_DataFrame records);
      st_dataframe frame
    else mret tt
  else mret tt.

Definition records_tab (clicked : bool) (pet_info : loc) : M unit :=
  st_header "📋 Health Records";;
  (if clicked then
     save_pet_data pet_info;;
     st_success "Health record saved successfully!"
   else mret tt);;
  show_records.

Definition analysis_tab (clicked : bool) (pet_info : loc) (previous_pet_info : pyval)
  : M unit :=
  if truthy previous_pet_info && clicked then
    st_spinner "Analyzing changes from previous report...";;
    analysis ← analyze_previous_report pet_info previous_pet_info;
    match analysis with
    | Some rec =>
        if truthy (VStr rec) then
          st_header "📊 Changes Analysis";;
          st_markdown rec false
        else mret tt
    | None => mret tt
    end
  else mret tt.

Definition main (ui : widgets) : M unit :=
  st_title "🐾 Advanced Pet Care Assistant";;
  previous_pet_info ←
    match uploaded_file ui with
    | Some f =>
        v ← lift (json_load f);
        st_success "Previous report loaded successfully!";;
        mret v
    | None => mret VNone
    end;
  st_header "Pet Information";;
  st_header "Food Preferences & Allergies";;
  now ← datetime_now;
  pet_info ← new_dict
    (pet_info_dict
       (Profile (pet_name ui) (pet_type ui) (breed_input ui) (age_input ui)
                (weight_input ui) (health_conditions_input ui)
                (favorite_foods_input ui) (allergies_input ui)
                (strftime "%Y-%m-%d %H:%M:%S" now)));
  care_tab (care_button ui) pet_info;;
  emergency_tab (emergency_button ui) pet_info;;
  training_tab (training_button ui) pet_info;;
  seasonal_tab (seasonal_button ui) pet_info;;
  records_tab (save_button ui) pet_info;;
  analysis_tab (analysis_button ui) pet_info previous_pet_info.

(** *** The prompt of a category *)

(** The prompt each category sends for the current profile, the previous
    record (comparison only) and the current date (seasonal care only). *)
Definition category_prompt (c : category) (now : datetime)
    (pet_info : pydict) (previous_pet_info : pyval) : outcome string :=
  match c with
  | Diet => diet_prompt pet_info
  | Care => care_prompt pet_info
  | Emergency => emergency_prompt pet_info
  | Training => training_prompt pet_info
  | Seasonal => seasonal_prompt (strftime "%B" now) pet_info
  | Comparison => comparison_prompt pet_info previous_pet_info
  end.

(** The world once the request for [prompt] has been sent. *)
Definition after_request (prompt : string) (w : world) : world :=
  World (heap w) (files w) (S (api_calls w)) (clock_reads w)
        (trace w ++ [GroqCreate (chat_request prompt)]).

(** *** Relations between the world before and after a computation *)

(** [m] relates every world it starts in to the world it ends in by [P],
    whether it returns or raises. *)
Definition keeps {A : Type} (P : world -> world -> Prop) (m : M A) : Prop :=
  forall w r w', m w = (r, w') -> P w w'.

(** The trace only grows. *)
Definition extends (w w' : world) : Prop :=
  exists evs, trace w' = trace w ++ evs.

(** Nothing is exported and nothing is stored: the heap and the files are
    the same, and the new events are neither document builds, nor download
    links, nor writes. *)
Definition quiet (w w' : world) : Prop :=
  heap w' = heap w /\ files w' = files w /\
  exists evs, trace w' = trace w ++ evs /\
              Forall (fun ev => exports_or_writes ev = false) evs.

(** The stamp a reading of the clock in [w] gives. *)
Definition stamp (w : world) : string :=
  strftime "%Y-%m-%d %H:%M:%S" (clock E (clock_reads w)).

(** The world once the clock has been read. *)
Definition after_clock_read (w : world) : world :=
  World (heap w) (files w) (api_calls w) (S (clock_reads w)) (trace w).

(** *** The story of a report *)

(** reportlab constructs a paragraph from [text]. *)
Definition well_formed (text : string) : bool :=
  match markup_error E text with
  | None => true
  | Some _ => false
  end.

(** reportlab constructs every paragraph of the story. *)
Definition story_accepted (story : list flowable) : bool :=
  forallb well_formed (paragraph_texts story).

(** The flowables of the sections, three per entry of the mapping. *)
Definition section_flowables (recommendations : list (string * string)) : list flowable :=
  flat_map (fun entry => [ Paragraph (fst entry) Heading2;
                           Paragraph (snd entry) Normal;
                           Spacer 1 12 ]) recommendations.

(** The story [create_pdf] puts together from the name and the summary it
    read in the profile, the sections, and the stamp of the report. *)
Definition report_story (name : pyval) (summary : string)
    (recommendations : list (string * string)) (generated : string) : list flowable :=
  [ Paragraph ("Pet Care Report for " +:+ py_str name) title_style;
    Paragraph "Pet Information" Heading2;
    Paragraph summary Normal;
    Spacer 1 12 ]
  ++ section_flowables recommendations
  ++ [ Paragraph ("Report Generated: " +:+ generated) Normal;
       Spacer 1 12;
       Paragraph disclaimer Italic ].

(** *** What a prompt reads *)

(** The keys of the current profile a category's template looks up. *)
Definition category_keys (c : category) : list string :=
  match c with
  | Diet => ["type"; "breed"; "age"; "weight"; "health_conditions"; "allergies"]
  | Care => ["type"; "breed"; "age"; "weight"; "health_conditions"]
  | Emergency => ["type"; "breed"]
  | Training => ["type"; "breed"; "age"]
  | Seasonal => ["type"; "breed"]
  | Comparison => ["weight"; "health_conditions"]
  end.

(** The keys of the previous record the comparison template looks up. *)
Definition previous_keys : list string := ["timestamp"; "weight"; "health_conditions"].

(** The keys of the profile [create_pdf] looks up. *)
Definition report_keys : list string :=
  ["name"; "type"; "breed"; "age"; "weight"; "health_conditions"; "allergies"].

(** [k in d] *)
Definition has_key (d : pydict) (k : string) : bool :=
  match dict_get k d with
  | Some _ => true
  | None => false
  end.

Definition has_keys (ks : list string) (d : pydict) : bool := forallb (has_key d) ks.

(** A dict that has the keys [ks]. *)
Definition is_dict_with (ks : list string) (v : pyval) : bool :=
  match v with
  | VDict d => has_keys ks d
  | _ => false
  end.

(** Everything a category's template looks up is there. *)
Definition prompt_inputs_present (c : category) (pet_info : pydict) (previous_pet_info : pyval)
  : bool :=
  has_keys (category_keys c) pet_info &&
  match c with
  | Comparison => is_dict_with previous_keys previous_pet_info
  | _ => true
  end.

(** *** A render that only displays *)

(** A call that puts something on the page, and neither sends a request,
    nor builds a document, nor offers a download, nor writes a file. *)
Definition is_display (ev : event) : bool :=
  match ev with
  | StTitle _ | StHeader _ | StSpinner _ | StError _ | StSuccess _ | StDataframe _ => true
  | StMarkdown _ html => negb html
  | GroqCreate _ | DocBuild _ | FileWrite _ _ => false
  end.

(** Between [w] and [w'] the program only displayed: the files and the
    number of requests are the same, the objects that were on the heap are
    as they were, and every new event is a display. *)
Definition idle (w w' : world) : Prop :=
  files w' = files w /\
  api_calls w' = api_calls w /\
  (forall l, is_Some (heap w !! l) -> heap w' !! l = heap w !! l) /\
  exists evs, trace w' = trace w ++ evs /\
              Forall (fun ev => is_display ev = true) evs.

(** The function that asks for a category's advice. *)
Definition generate_for (c : category) (pet_info : loc) (previous_pet_info : pyval)
  : M (option string) :=
  match c with
  | Diet => generate_diet_recommendation pet_info
  | Care => generate_care_recommendation pet_info
  | Emergency => generate_emergency_guide pet_info
  | Training => generate_training_tips pet_info
  | Seasonal => generate_seasonal_care pet_info
  | Comparison => analyze_previous_report pet_info previous_pet_info
  end.

(** Two dicts hold the same under each key of [ks]. *)
Definition agree_on (ks : list string) (d d' : pydict) : Prop :=
  forall k, In k ks -> dict_get k d = dict_get k d'.

(** Two uploaded records that the comparison template cannot tell apart. *)
Definition records_agree (v v' : pyval) : Prop :=
  match v, v' with
  | VDict d, VDict d' => agree_on previous_keys d d'
  | _, _ => v = v'
  end.

(** ** Facts about text *)

Lemma string_app_cons (c : ascii) (s t : string) :
  String c s +:+ t = String c (s +:+ t).
Proof. reflexivity. Qed.

Lemma string_app_nil_r (s : string) : s +:+ "" = s.
Proof.
  induction s as [|c s IH]; [reflexivity|].
  rewrite string_app_cons, IH. reflexivity.
Qed.

Lemma string_app_assoc (a b c : string) : (a +:+ b) +:+ c = a +:+ (b +:+ c).
Proof.
  induction a as [|x a IH]; [reflexivity|].
  rewrite !string_app_cons, IH. reflexivity.
Qed.

Lemma string_take_drop (n : nat) (s : string) :
  string_take n s +:+ string_drop n s = s.
Proof.
  revert s. induction n as [|n IH]; intros [|c s]; try reflexivity.
  cbn [string_take string_drop]. rewrite string_app_cons, IH. reflexivity.
Qed.

Lemma starts_with_spec (p s : string) :
  starts_with p s = true <-> exists rest, s = p +:+ rest.
Proof.
  revert s. induction p as [|a p IH]; intros s.
  - split; [intros _; exists s; reflexivity | reflexivity].
  - destruct s as [|b s]; cbn [starts_with].
    + split; [discriminate | intros [rest H]; discriminate].
    + rewrite andb_true_iff, IH. split.
      * intros [Hab [rest ->]]. apply Ascii.eqb_eq in Hab as ->.
        exists rest. reflexivity.
      * intros [rest H]. rewrite string_app_cons in H.
        injection H as -> ->. split; [apply Ascii.eqb_refl | eauto].
Qed.

Lemma ends_with_sound (p s : string) :
  ends_with p s = true -> exists front, s = front +:+ p.
Proof.
  unfold ends_with. intros H. apply String.eqb_eq in H.
  exists (string_take (String.length s - String.length p) s).
  rewrite <- H at 2. symmetry. apply string_take_drop.
Qed.

Lemma occurs_in_app_r (sub s t : string) : occurs_in sub s -> occurs_in sub (s +:+ t).
Proof.
  intros (before & after & ->). exists before, (after +:+ t).
  rewrite !string_app_assoc. reflexivity.
Qed.

Lemma occurs_in_app_l (sub s t : string) : occurs_in sub s -> occurs_in sub (t +:+ s).
Proof.
  intros (before & after & ->). exists (t +:+ before), after.
  rewrite !string_app_assoc. reflexivity.
Qed.

(** [contains] decides [occurs_in]. *)
Lemma contains_spec (sub s : string) : contains sub s = true <-> occurs_in sub s.
Proof.
  induction s as [|c s IH]; cbn [contains]; rewrite orb_true_iff.
  - split.
    + intros [H|H]; [|discriminate].
      apply starts_with_spec in H as [rest H]. exists "", rest. exact H.
    + intros (before & after & H). left. apply starts_with_spec.
      destruct before as [|x before]; [|discriminate].
      exists after. exact H.
  - rewrite IH, starts_with_spec. split.
    + intros [[rest H]|H].
      * exists "", rest. exact H.
      * apply (occurs_in_app_l _ _ (String c "")) in H. exact H.
    + intros (before & after & H). destruct before as [|x before].
      * left. exists after. exact H.
      * right. rewrite string_app_cons in H. injection H as _ ->.
        exists before, after. reflexivity.
Qed.

Lemma contains_false (sub s : string) : contains sub s = false -> ~ occurs_in sub s.
Proof. intros H Hocc. apply contains_spec in Hocc. congruence. Qed.

(** ** Facts about dictionaries *)

Lemma dict_get_set_eq (k : string) (v : pyval) (d : pydict) :
  dict_get k (dict_set k v d) = Some v.
Proof.
  induction d as [|[k' v'] d IH]; cbn [dict_set dict_get].
  - rewrite String.eqb_refl. reflexivity.
  - destruct (String.eqb k k') eqn:Hk; cbn [dict_get]; rewrite ?String.eqb_refl, ?Hk; auto.
Qed.

Lemma dict_get_set_ne (k k' : string) (v : pyval) (d : pydict) :
  k <> k' -> dict_get k' (dict_set k v d) = dict_get k' d.
Proof.
  intros Hne. induction d as [|[k0 v0] d IH]; cbn [dict_set dict_get].
  - destruct (String.eqb_spec k' k); congruence.
  - destruct (String.eqb_spec k k0) as [->|Hk0]; cbn [dict_get].
    + destruct (String.eqb_spec k' k0); congruence.
    + destruct (String.eqb_spec k' k0); congruence.
Qed.

(** Stamping a profile's dictionary gives the dictionary of the stamped profile. *)
Lemma dict_set_timestamp (ts : string) (p : PetProfile) :
  dict_set "timestamp" (VStr ts) (pet_info_dict p) = pet_info_dict (with_timestamp ts p).
Proof. reflexivity. Qed.

(** ** Facts about f-strings *)

Lemma fstring_cons (s : segment) (segs : list segment) :
  fstring (s :: segs) = render s +:+ fstring segs.
Proof. reflexivity. Qed.

Lemma fstring_app (segs1 segs2 : list segment) :
  fstring (segs1 ++ segs2) = fstring segs1 +:+ fstring segs2.
Proof.
  induction segs1 as [|s segs1 IH]; [reflexivity|].
  rewrite <- app_comm_cons, !fstring_cons, IH, string_app_assoc. reflexivity.
Qed.

(** A formatted value stands in the text right after the literal before it
    and right before the literal after it. *)
Lemma fstring_slot (segs : list segment) (i : nat) (L R label closing sub : string) (v : pyval) :
  segs !! i = Some (Lit L) ->
  segs !! S i = Some (Fmt v) ->
  segs !! S (S i) = Some (Lit R) ->
  ends_with label L = true ->
  starts_with closing R = true ->
  sub = label +:+ py_str v +:+ closing ->
  occurs_in sub (fstring segs).
Proof.
  intros HL Hv HR Hlabel Hclosing ->.
  apply ends_with_sound in Hlabel as [front ->].
  apply starts_with_spec in Hclosing as [rest ->].
  rewrite <- (take_drop i segs).
  rewrite (drop_S _ _ _ HL), (drop_S _ _ _ Hv), (drop_S _ _ _ HR).
  rewrite fstring_app, !fstring_cons. cbn [render].
  exists (fstring (take i segs) +:+ front), (rest +:+ fstring (drop (S (S (S i))) segs)).
  rewrite !string_app_assoc. reflexivity.
Qed.

(** ** Running computations *)

Lemma run_bind {A B : Type} (m : M A) (f : A -> M B) (w : world) :
  (m ≫= f) w =
  match m w with
  | (Ok a, w') => f a w'
  | (Raise e, w') => (Raise e, w')
  end.
Proof. reflexivity. Qed.

Lemma run_bind_ok {A B : Type} (m : M A) (f : A -> M B) (w w' : world) (a : A) :
  m w = (Ok a, w') -> (m ≫= f) w = f a w'.
Proof. intros H. rewrite run_bind, H. reflexivity. Qed.

Lemma run_lift_bind {A B : Type} (o : outcome A) (f : A -> M B) (w : world) :
  (lift o ≫= f) w =
  match o with
  | Ok a => f a w
  | Raise e => (Raise e, w)
  end.
Proof. rewrite run_bind. unfold lift. destruct o; reflexivity. Qed.

Lemma run_deref (l : loc) (d : pydict) (w : world) :
  heap w !! l = Some d -> deref l w = (Ok d, w).
Proof. intros H. unfold deref. rewrite H. reflexivity. Qed.

(** *** The recommendation client, case by case *)

Lemma generate_recommendation_run (prompt : string) (w : world) :
  generate_recommendation prompt w =
  match groq_create E (api_calls w) (chat_request prompt) with
  | Ok c =>
      match choices c with
      | first :: _ => (Ok (msg_content (message first)), after_request prompt w)
      | [] =>
          (Ok None,
           log_event (StError ("Error generating recommendation: " +:+ "list index out of range"))
                     (after_request prompt w))
      end
  | Raise e =>
      if isinstance_Exception e then
        (Ok None,
         log_event (StError ("Error generating recommendation: " +:+ exn_str e))
                   (after_request prompt w))
      else (Raise e, after_request prompt w)
  end.
Proof.
  unfold generate_recommendation, try_except_Exception.
  rewrite run_bind. unfold groq_chat_completions_create at 1.
  fold (after_request prompt w).
  destruct (groq_create E (api_calls w) (chat_request prompt)) as [c|e].
  - rewrite run_bind. unfold lift, list_getitem.
    destruct (choices c) as [|first rest]; cbn [lookup list_lookup].
    + cbn [isinstance_Exception exn_cls]. rewrite run_bind.
      unfold st_error, emit, fstring. cbn [fold_right render py_str exn_str].
      rewrite string_app_nil_r. reflexivity.
    + reflexivity.
  - destruct (isinstance_Exception e); [|reflexivity].
    rewrite run_bind. unfold st_error, emit, fstring.
    cbn [fold_right render py_str]. rewrite string_app_nil_r. reflexivity.
Qed.

(** ** Frame rules *)

Section Frames.

Variable P : world -> world -> Prop.
Hypothesis P_refl : forall w, P w w.
Hypothesis P_trans : forall w1 w2 w3, P w1 w2 -> P w2 w3 -> P w1 w3.

Lemma keeps_ret {A : Type} (a : A) : keeps P (mret a).
Proof using P_refl. intros w r w' H. injection H as _ <-. apply P_refl. Qed.

Lemma keeps_lift {A : Type} (o : outcome A) : keeps P (lift o).
Proof using P_refl. intros w r w' H. injection H as _ <-. apply P_refl. Qed.

Lemma keeps_bind {A B : Type} (m : M A) (f : A -> M B) :
  keeps P m -> (forall a, keeps P (f a)) -> keeps P (m ≫= f).
Proof using P_trans.
  intros Hm Hf w r w'. rewrite run_bind.
  destruct (m w) as [[a|e] w1] eqn:Hrun; intros H.
  - eapply P_trans; [eapply Hm, Hrun | eapply Hf, H].
  - injection H as _ <-. eapply Hm, Hrun.
Qed.

Lemma keeps_deref (l : loc) : keeps P (deref l).
Proof using P_refl.
  intros w r w'. unfold deref.
  destruct (heap w !! l); intros H; injection H as _ <-; apply P_refl.
Qed.

Lemma keeps_os_path_exists (filename : string) : keeps P (os_path_exists filename).
Proof using P_refl. intros w r w' H. injection H as _ <-. apply P_refl. Qed.

Lemma keeps_open_json_load (filename : string) : keeps P (open_json_load filename).
Proof using P_refl.
  intros w r w'. unfold open_json_load.
  destruct (files w !! filename); intros H; injection H as _ <-; apply P_refl.
Qed.

End Frames.

Lemma extends_refl (w : world) : extends w w.
Proof. exists []. rewrite app_nil_r. reflexivity. Qed.

Lemma extends_trans (w1 w2 w3 : world) : extends w1 w2 -> extends w2 w3 -> extends w1 w3.
Proof.
  intros [evs1 H1] [evs2 H2]. exists (evs1 ++ evs2).
  rewrite H2, H1, app_assoc. reflexivity.
Qed.

Lemma quiet_refl (w : world) : quiet w w.
Proof.
  repeat split. exists []. rewrite app_nil_r. split; [reflexivity | constructor].
Qed.

Lemma quiet_trans (w1 w2 w3 : world) : quiet w1 w2 -> quiet w2 w3 -> quiet w1 w3.
Proof.
  intros (Hh1 & Hf1 & evs1 & Ht1 & Hq1) (Hh2 & Hf2 & evs2 & Ht2 & Hq2).
  repeat split; [congruence | congruence |].
  exists (evs1 ++ evs2). rewrite Ht2, Ht1, app_assoc.
  split; [reflexivity | apply Forall_app; split; assumption].
Qed.

Lemma quiet_extends (w w' : world) : quiet w w' -> extends w w'.
Proof. intros (_ & _ & evs & H & _). exists evs. exact H. Qed.

(** Logging an event that is no export and no write is quiet. *)
Lemma quiet_log_event (ev : event) (w : world) :
  exports_or_writes ev = false -> quiet w (log_event ev w).
Proof.
  intros Hev. repeat split. exists [ev].
  split; [reflexivity | repeat constructor; exact Hev].
Qed.

Lemma quiet_emit (ev : event) :
  exports_or_writes ev = false -> keeps quiet (emit ev).
Proof. intros Hev w r w' H. injection H as _ <-. apply quiet_log_event, Hev. Qed.

Lemma quiet_after_request (prompt : string) (w : world) : quiet w (after_request prompt w).
Proof.
  repeat split. exists [GroqCreate (chat_request prompt)].
  split; [reflexivity | repeat constructor].
Qed.

Lemma quiet_datetime_now : keeps quiet datetime_now.
Proof.
  intros w r w' H. injection H as _ <-. repeat split.
  exists []. cbn [trace]. rewrite app_nil_r. split; [reflexivity | constructor].
Qed.

(** The recommendation client exports nothing and stores nothing. *)
Lemma quiet_generate_recommendation (prompt : string) :
  keeps quiet (generate_recommendation prompt).
Proof.
  intros w r w'. rewrite generate_recommendation_run.
  pose proof (quiet_after_request prompt w) as Hreq.
  destruct (groq_create E (api_calls w) (chat_request prompt)) as [c|e].
  - destruct (choices c); intros H; injection H as _ <-; [|exact Hreq].
    eapply quiet_trans; [exact Hreq | apply quiet_log_event; reflexivity].
  - destruct (isinstance_Exception e); intros H; injection H as _ <-; [|exact Hreq].
    eapply quiet_trans; [exact Hreq | apply quiet_log_event; reflexivity].
Qed.

Ltac quiet_steps :=
  repeat first
    [ apply keeps_bind; [exact quiet_trans | | intros ?]
    | apply keeps_deref; exact quiet_refl
    | apply keeps_lift; exact quiet_refl
    | apply keeps_ret; exact quiet_refl
    | apply quiet_datetime_now
    | apply quiet_generate_recommendation
    | apply quiet_emit; reflexivity ].

Lemma quiet_generate_diet_recommendation (l : loc) :
  keeps quiet (generate_diet_recommendation l).
Proof. unfold generate_diet_recommendation. quiet_steps. Qed.

Lemma quiet_generate_care_recommendation (l : loc) :
  keeps quiet (generate_care_recommendation l).
Proof. unfold generate_care_recommendation. quiet_steps. Qed.

Lemma quiet_generate_emergency_guide (l : loc) :
  keeps quiet (generate_emergency_guide l).
Proof. unfold generate_emergency_guide. quiet_steps. Qed.

Lemma quiet_generate_training_tips (l : loc) :
  keeps quiet (generate_training_tips l).
Proof. unfold generate_training_tips. quiet_steps. Qed.

Lemma quiet_generate_seasonal_care (l : loc) :
  keeps quiet (generate_seasonal_care l).
Proof. unfold generate_seasonal_care. quiet_steps. Qed.

Lemma quiet_analyze_previous_report (l : loc) (previous : pyval) :
  keeps quiet (analyze_previous_report l previous).
Proof. unfold analyze_previous_report. quiet_steps. Qed.

(** ** The recommendation client *)

(** C1.  Whenever the API call fails with an exception (the client raises an
    instance of [Exception], as it does for network, authentication and quota
    errors, or the response has no first choice), [generate_recommendation]
    catches it, shows the error message and returns [None]: nothing is raised
    to the caller. *)
Theorem generate_recommendation_catches_failure
    (prompt : string) (w : world) (e : exn) :
  api_failure (groq_create E (api_calls w) (chat_request prompt)) e ->
  isinstance_Exception e = true ->
  generate_recommendation prompt w =
    (Ok None,
     log_event (StError ("Error generating recommendation: " +:+ exn_str e))
               (after_request prompt w)).
Proof.
  intros Hfail Hexc. rewrite generate_recommendation_run.
  inversion Hfail as [e' Heq | c Hchoices Heq]; subst.
  - rewrite Hexc. reflexivity.
  - rewrite Hchoices. reflexivity.
Qed.

(** X3.  Whatever the API does, short of a signal outside [Exception], the
    client returns. *)
Lemma generate_recommendation_returns (prompt : string) (w : world) :
  (forall e, groq_create E (api_calls w) (chat_request prompt) = Raise e ->
             isinstance_Exception e = true) ->
  exists r w', generate_recommendation prompt w = (Ok r, w').
Proof.
  intros Hexc. rewrite generate_recommendation_run.
  destruct (groq_create E (api_calls w) (chat_request prompt)) as [c|e].
  - destruct (choices c); eauto.
  - rewrite (Hexc e eq_refl). eauto.
Qed.

(** ** The combined Care Guide panel *)

(** The panel up to the test of the two results. *)
Lemma care_tab_run (l : loc) (w w1 w2 : world) (diet_rec care_rec : option string) :
  generate_diet_recommendation l
    (log_event (StSpinner "Generating comprehensive care guide...") w) = (Ok diet_rec, w1) ->
  generate_care_recommendation l w1 = (Ok care_rec, w2) ->
  truthy_opt diet_rec && truthy_opt care_rec = false ->
  care_tab true l w = (Ok tt, w2).
Proof.
  intros Hdiet Hcare Hgate. unfold care_tab.
  rewrite run_bind. unfold st_spinner at 1, emit at 1.
  rewrite (run_bind_ok _ _ _ _ _ Hdiet), (run_bind_ok _ _ _ _ _ Hcare).
  destruct diet_rec as [diet|], care_rec as [care|]; try reflexivity.
  cbn [truthy_opt] in Hgate. rewrite Hgate. reflexivity.
Qed.

Lemma generate_diet_recommendation_run (l : loc) (d : pydict) (prompt : string) (w : world) :
  heap w !! l = Some d ->
  diet_prompt d = Ok prompt ->
  generate_diet_recommendation l w = generate_recommendation prompt w.
Proof.
  intros Hl Hprompt. unfold generate_diet_recommendation.
  rewrite (run_bind_ok _ _ _ _ _ (run_deref l d w Hl)).
  rewrite run_bind. unfold lift. rewrite Hprompt. reflexivity.
Qed.

Lemma generate_care_recommendation_run (l : loc) (d : pydict) (prompt : string) (w : world) :
  heap w !! l = Some d ->
  care_prompt d = Ok prompt ->
  generate_care_recommendation l w = generate_recommendation prompt w.
Proof.
  intros Hl Hprompt. unfold generate_care_recommendation.
  rewrite (run_bind_ok _ _ _ _ _ (run_deref l d w Hl)).
  rewrite run_bind. unfold lift. rewrite Hprompt. reflexivity.
Qed.

(** Every run of the client counts as one call. *)
Lemma generate_recommendation_counts (prompt : string) (w w' : world) (r : outcome (option string)) :
  generate_recommendation prompt w = (r, w') -> api_calls w' = S (api_calls w).
Proof.
  rewrite generate_recommendation_run.
  destruct (groq_create E (api_calls w) (chat_request prompt)) as [c|e].
  - destruct (choices c); intros H; injection H as _ <-; reflexivity.
  - destruct (isinstance_Exception e); intros H; injection H as _ <-; reflexivity.
Qed.

(** A call that fails gives no text. *)
Lemma failed_call_gives_no_text (prompt : string) (w w' : world) (e : exn) (text : string) :
  api_failure (groq_create E (api_calls w) (chat_request prompt)) e ->
  generate_recommendation prompt w <> (Ok (Some text), w').
Proof.
  intros Hfail. rewrite generate_recommendation_run.
  inversion Hfail as [e' Heq | c Hchoices Heq]; subst.
  - destruct (isinstance_Exception e); discriminate.
  - rewrite Hchoices. discriminate.
Qed.

(** Unless both calls come back with text, the panel is quiet. *)
Lemma care_tab_quiet_or_both (clicked : bool) (l : loc) (w w' : world) (r : outcome unit) :
  care_tab clicked l w = (r, w') ->
  quiet w w' \/
  exists w1 w2 diet care,
    clicked = true /\
    generate_diet_recommendation l
      (log_event (StSpinner "Generating comprehensive care guide...") w)
      = (Ok (Some diet), w1) /\
    generate_care_recommendation l w1 = (Ok (Some care), w2) /\
    diet <> "" /\ care <> "".
Proof.
  unfold care_tab. destruct clicked.
  2:{ intros H. injection H as _ <-. left. apply quiet_refl. }
  rewrite run_bind. unfold st_spinner at 1, emit at 1.
  set (w0 := log_event (StSpinner "Generating comprehensive care guide...") w).
  assert (quiet w w0) as Hq0 by (apply quiet_log_event; reflexivity).
  rewrite run_bind.
  destruct (generate_diet_recommendation l w0) as [[diet_rec|e] w1] eqn:Hdiet.
  2:{ intros H. injection H as _ <-. left.
      eapply quiet_trans; [exact Hq0 | eapply quiet_generate_diet_recommendation, Hdiet]. }
  assert (quiet w w1) as Hq1.
  { eapply quiet_trans; [exact Hq0 | eapply quiet_generate_diet_recommendation, Hdiet]. }
  rewrite run_bind.
  destruct (generate_care_recommendation l w1) as [[care_rec|e] w2] eqn:Hcare.
  2:{ intros H. injection H as _ <-. left.
      eapply quiet_trans; [exact Hq1 | eapply quiet_generate_care_recommendation, Hcare]. }
  assert (quiet w w2) as Hq2.
  { eapply quiet_trans; [exact Hq1 | eapply quiet_generate_care_recommendation, Hcare]. }
  destruct diet_rec as [diet|], care_rec as [care|];
    try (intros H; injection H as _ <-; left; exact Hq2).
  cbn [truthy].
  destruct (String.eqb_spec diet "") as [->|Hd]; cbn [negb andb].
  { intros H; injection H as _ <-; left; exact Hq2. }
  destruct (String.eqb_spec care "") as [->|Hc]; cbn [negb].
  { intros H; injection H as _ <-; left; exact Hq2. }
  intros _. right. exists w1, w2, diet, care. auto.
Qed.

(** C4.  When the diet call or the care call of the Care Guide action comes
    back absent, the action ends there: no document is built, the record
    store is not written, and the profile's dictionary is left as it was.
    A run of the panel that builds a document or writes the store is one in
    which both calls came back with text.  In terms of the API: when the
    first or the second request of the action fails, the run exports nothing
    and stores nothing, however it ends. *)
Theorem care_tab_failure_skips_export_and_save :
  (forall l w w1 w2 diet_rec care_rec,
     generate_diet_recommendation l
       (log_event (StSpinner "Generating comprehensive care guide...") w)
       = (Ok diet_rec, w1) ->
     generate_care_recommendation l w1 = (Ok care_rec, w2) ->
     diet_rec = None \/ care_rec = None ->
     care_tab true l w = (Ok tt, w2) /\
     files w2 = files w /\
     heap w2 = heap w /\
     exists evs, trace w2 = trace w ++ evs /\
                 Forall (fun ev => exports_or_writes ev = false) evs) /\
  (forall clicked l w r w' evs,
     care_tab clicked l w = (r, w') ->
     trace w' = trace w ++ evs ->
     Exists (fun ev => exports_or_writes ev = true) evs ->
     exists w1 w2 diet care,
       clicked = true /\
       generate_diet_recommendation l
         (log_event (StSpinner "Generating comprehensive care guide...") w)
         = (Ok (Some diet), w1) /\
       generate_care_recommendation l w1 = (Ok (Some care), w2) /\
       diet <> "" /\ care <> "") /\
  (forall p l w e diet_request care_request r w',
     heap w !! l = Some (pet_info_dict p) ->
     diet_prompt (pet_info_dict p) = Ok diet_request ->
     care_prompt (pet_info_dict p) = Ok care_request ->
     api_failure (groq_create E (api_calls w) (chat_request diet_request)) e \/
     api_failure (groq_create E (S (api_calls w)) (chat_request care_request)) e ->
     care_tab true l w = (r, w') ->
     files w' = files w /\
     heap w' = heap w /\
     exists evs, trace w' = trace w ++ evs /\
                 Forall (fun ev => exports_or_writes ev = false) evs).
Proof.
  split; [|split].
  - intros l w w1 w2 diet_rec care_rec Hdiet Hcare Hnone. split.
    + eapply care_tab_run; eauto.
      destruct Hnone as [-> | ->]; [reflexivity | apply andb_false_r].
    + assert (quiet w w2) as (Hheap & Hfiles & Hevs).
      { eapply quiet_trans;
          [apply (quiet_log_event (StSpinner "Generating comprehensive care guide...") w);
           reflexivity |].
        eapply quiet_trans.
        - eapply quiet_generate_diet_recommendation, Hdiet.
        - eapply quiet_generate_care_recommendation, Hcare. }
      auto.
  - intros clicked l w r w' evs Hrun Htrace Hexport.
    destruct (care_tab_quiet_or_both _ _ _ _ _ Hrun) as [Hquiet | Hboth]; [|exact Hboth].
    destruct Hquiet as (_ & _ & evs' & Htrace' & Hnone).
    rewrite Htrace in Htrace'. apply app_inv_head in Htrace' as ->.
    apply Exists_exists in Hexport as (ev & Hin & Hev).
    rewrite Forall_forall in Hnone.
    specialize (Hnone ev Hin). congruence.
  - intros p l w e diet_request care_request r w' Hl Hdp Hcp Hfail Hrun.
    destruct (care_tab_quiet_or_both _ _ _ _ _ Hrun) as [Hquiet | Hboth].
    { destruct Hquiet as (Hheap & Hfiles & Hevs). auto. }
    exfalso.
    destruct Hboth as (w1 & w2 & diet & care & _ & Hdiet & Hcare & _ & _).
    set (w0 := log_event (StSpinner "Generating comprehensive care guide...") w) in *.
    assert (heap w1 = heap w) as Hheap1.
    { apply (quiet_generate_diet_recommendation l w0 _ w1 Hdiet). }
    rewrite (generate_diet_recommendation_run l _ diet_request w0 Hl Hdp) in Hdiet.
    rewrite (generate_care_recommendation_run l (pet_info_dict p) care_request w1) in Hcare;
      [|rewrite Hheap1; exact Hl | exact Hcp].
    destruct Hfail as [Hfail | Hfail].
    + exact (failed_call_gives_no_text _ w0 w1 e diet Hfail Hdiet).
    + apply generate_recommendation_counts in Hdiet as Hcount.
      refine (failed_call_gives_no_text _ w1 w2 e care _ Hcare).
      rewrite Hcount. exact Hfail.
Qed.

(** ** The record store *)

Lemma resolve_all_run (vs : list pyval) (l : loc) (d : pydict) (w : world) :
  heap w !! l = Some d ->
  resolve_all (map Val vs ++ [Ref l]) w = (Ok (vs ++ [VDict d]), w).
Proof.
  intros Hl. induction vs as [|v vs IH]; cbn [map app resolve_all].
  - rewrite run_bind. unfold resolve. rewrite (run_bind_ok _ _ _ _ _ (run_deref _ _ _ Hl)).
    reflexivity.
  - rewrite run_bind. cbn [resolve]. unfold mret at 1, M_ret at 1.
    rewrite run_bind, IH. reflexivity.
Qed.

Lemma log_of_cases (w : world) (old : list pyval) :
  log_of w = Some old ->
  (files w !! "pet_data.json" = None /\ old = []) \/
  files w !! "pet_data.json" = Some (Document (VList old)).
Proof.
  unfold log_of. destruct (files w !! "pet_data.json") as [[text|[]]|]; intros H;
    try discriminate; injection H as <-; auto.
Qed.

(** What one append does, when the store holds a log. *)
Lemma save_pet_data_run (l : loc) (d : pydict) (w : world) (old : list pyval) :
  heap w !! l = Some d ->
  log_of w = Some old ->
  let d' := dict_set "timestamp" (VStr (stamp w)) d in
  let doc := VList (old ++ [VDict d']) in
  save_pet_data l w =
    (Ok tt,
     World (<[l := d']> (heap w))
           (<["pet_data.json" := Document doc]> (files w))
           (api_calls w) (S (clock_reads w))
           (trace w ++ [FileWrite "pet_data.json" doc])).
Proof.
  intros Hl Hlog d' doc. unfold save_pet_data.
  rewrite run_bind. unfold os_path_exists at 1.
  assert ((if bool_decide (is_Some (files w !! "pet_data.json"))
           then open_json_load "pet_data.json" else mret (VList [])) w
          = (Ok (VList old), w)) as Hdata.
  { destruct (log_of_cases w old Hlog) as [[Hnone ->] | Hsome].
    - rewrite Hnone. reflexivity.
    - rewrite bool_decide_eq_true_2 by (rewrite Hsome; eauto).
      unfold open_json_load. rewrite Hsome. reflexivity. }
  rewrite (run_bind_ok _ _ _ _ _ Hdata).
  rewrite run_bind. unfold datetime_now at 1.
  fold (stamp w).
  set (w1 := World (heap w) (files w) (api_calls w) (S (clock_reads w)) (trace w)).
  assert (setitem l "timestamp" (VStr (stamp w)) w1
          = (Ok tt, set_heap (<[l := d']> (heap w)) w1)) as Hset.
  { unfold setitem. rewrite (run_bind_ok _ _ _ _ _ (run_deref l d w1 Hl)). reflexivity. }
  rewrite (run_bind_ok _ _ _ _ _ Hset).
  rewrite run_bind. unfold lift at 1, append.
  unfold open_json_dump.
  rewrite (run_bind_ok _ _ _ _ _ (resolve_all_run old l d' _ (lookup_insert_eq _ _ _))).
  reflexivity.
Qed.

Lemma show_records_run (w : world) :
  show_records w =
  match files w !! "pet_data.json" with
  | None => (Ok tt, w)
  | Some (Document records) =>
      if truthy records then
        match dataframe_error E records with
        | None => (Ok tt, log_event (StDataframe records) w)
        | Some e => (Raise e, w)
        end
      else (Ok tt, w)
  | Some (NotJson _) =>
      (Raise (Exn JSONDecodeError "Expecting value: line 1 column 1 (char 0)"), w)
  end.
Proof.
  unfold show_records. rewrite run_bind. unfold os_path_exists at 1.
  destruct (files w !! "pet_data.json") as [f|] eqn:Hfile; [|reflexivity].
  rewrite bool_decide_eq_true_2 by eauto.
  rewrite run_bind. unfold open_json_load. rewrite Hfile.
  destruct f as [text|records]; cbn [json_load]; [reflexivity|].
  destruct (truthy records); [|reflexivity].
  rewrite run_bind. unfold lift at 1, pd_DataFrame.
  destruct (dataframe_error E records); reflexivity.
Qed.

(** C5.  Round trip of the record store: after [save_pet_data] on a
    profile, loading the log gives a non-empty list whose last record is the
    profile with every field as it was, except the timestamp, which is the
    stamp taken at the append.  The records panel loads that list and hands
    it to pandas: it shows the frame when pandas builds one, and leaves with
    pandas' exception, showing nothing, when it does not. *)
Theorem save_then_load_round_trip
    (p : PetProfile) (l : loc) (w : world) (old : list pyval) :
  heap w !! l = Some (pet_info_dict p) ->
  log_of w = Some old ->
  exists w' records,
    save_pet_data l w = (Ok tt, w') /\
    open_json_load "pet_data.json" w' = (Ok (VList records), w') /\
    show_records w' =
      match dataframe_error E (VList records) with
      | None => (Ok tt, log_event (StDataframe (VList records)) w')
      | Some e => (Raise e, w')
      end /\
    records <> [] /\
    last records = Some (VDict (pet_info_dict (with_timestamp (stamp w) p))).
Proof.
  intros Hl Hlog.
  pose proof (save_pet_data_run l _ w old Hl Hlog) as Hsave. cbv zeta in Hsave.
  rewrite dict_set_timestamp in Hsave.
  eexists _, (old ++ [VDict (pet_info_dict (with_timestamp (stamp w) p))]).
  split; [exact Hsave|].
  split; [|split; [|split]].
  - unfold open_json_load. cbn [files]. rewrite lookup_insert_eq. reflexivity.
  - rewrite show_records_run. cbn [files]. rewrite lookup_insert_eq.
    cbn [truthy]. rewrite length_app, Nat.add_comm. reflexivity.
  - intros Hnil. apply app_eq_nil in Hnil as [_ Hnil]. discriminate.
  - apply last_snoc.
Qed.

(** C7.  Appending only adds: one [save_pet_data] on a log of [n] records
    leaves a log of [n + 1] records that starts with the [n] old ones, and a
    second one leaves [n + 2] records that start with those [n + 1]; from
    an empty store, two appends give a log of length 2. *)
Theorem save_pet_data_appends
    (l1 l2 : loc) (w : world) (old : list pyval) :
  is_Some (heap w !! l1) ->
  is_Some (heap w !! l2) ->
  log_of w = Some old ->
  exists w1 w2 new1 new2,
    save_pet_data l1 w = (Ok tt, w1) /\
    stored_records w1 = Some new1 /\
    length new1 = S (length old) /\
    take (length old) new1 = old /\
    save_pet_data l2 w1 = (Ok tt, w2) /\
    stored_records w2 = Some new2 /\
    length new2 = S (S (length old)) /\
    take (length new1) new2 = new1.
Proof.
  intros [d1 Hl1] Hl2 Hlog.
  pose proof (save_pet_data_run l1 d1 w old Hl1 Hlog) as Hsave1. cbv zeta in Hsave1.
  set (new1 := old ++ [VDict (dict_set "timestamp" (VStr (stamp w)) d1)]) in *.
  match type of Hsave1 with _ = (_, ?w') => set (w1 := w') in * end.
  assert (log_of w1 = Some new1) as Hlog1.
  { unfold log_of, w1. cbn [files]. rewrite lookup_insert_eq. reflexivity. }
  assert (is_Some (heap w1 !! l2)) as [d2 Hl2'].
  { unfold w1. cbn [heap]. rewrite lookup_insert_is_Some.
    destruct (decide (l1 = l2)); auto. }
  pose proof (save_pet_data_run l2 d2 w1 new1 Hl2' Hlog1) as Hsave2. cbv zeta in Hsave2.
  eexists w1, _, new1, (new1 ++ [_]).
  split; [exact Hsave1|].
  split; [unfold stored_records, w1; cbn [files]; rewrite lookup_insert_eq; reflexivity|].
  split; [unfold new1; rewrite length_app, Nat.add_comm; reflexivity|].
  split; [unfold new1; apply take_app_length|].
  split; [exact Hsave2|].
  split; [unfold stored_records; cbn [files]; rewrite lookup_insert_eq; reflexivity|].
  split; [|apply take_app_length].
  unfold new1. rewrite !length_app. cbn [length]. lia.
Qed.

(** C10.  [save_pet_data] changes the caller's dictionary in place: after
    the call the object holds the append-time stamp under ["timestamp"] and
    every other key as before, the last record of the log is that same
    dictionary, and no other object is touched. *)
Theorem save_pet_data_stamps_in_place
    (l : loc) (d : pydict) (w : world) (old : list pyval) :
  heap w !! l = Some d ->
  log_of w = Some old ->
  exists w' d' records,
    save_pet_data l w = (Ok tt, w') /\
    heap w' !! l = Some d' /\
    dict_get "timestamp" d' = Some (VStr (stamp w)) /\
    (forall k, k <> "timestamp" -> dict_get k d' = dict_get k d) /\
    stored_records w' = Some records /\
    last records = Some (VDict d') /\
    (forall l', l' <> l -> heap w' !! l' = heap w !! l').
Proof.
  intros Hl Hlog.
  pose proof (save_pet_data_run l d w old Hl Hlog) as Hsave. cbv zeta in Hsave.
  eexists _, (dict_set "timestamp" (VStr (stamp w)) d), _.
  split; [exact Hsave|]. cbn [heap].
  split; [apply lookup_insert_eq|].
  split; [apply dict_get_set_eq|].
  split; [intros k Hk; apply dict_get_set_ne; congruence|].
  split; [unfold stored_records; cbn [files]; rewrite lookup_insert_eq; reflexivity|].
  split; [apply last_snoc|].
  intros l' Hne. apply lookup_insert_ne. congruence.
Qed.

(** C6, as the code has it.  With no log file, [save_pet_data] starts from
    the empty log and the records panel loads and shows nothing; a log file
    that holds the empty JSON array loads as the empty list and the panel
    shows nothing; neither raises.  (A file that holds no JSON document, such
    as a file of zero bytes, makes [json.load] raise instead.) *)
Theorem empty_store_loads_as_empty
    (l : loc) (d : pydict) (w : world) :
  heap w !! l = Some d ->
  (files w !! "pet_data.json" = None ->
     show_records w = (Ok tt, w) /\
     exists w', save_pet_data l w = (Ok tt, w') /\
                stored_records w' =
                  Some [VDict (dict_set "timestamp" (VStr (stamp w)) d)]) /\
  (files w !! "pet_data.json" = Some (Document (VList [])) ->
     open_json_load "pet_data.json" w = (Ok (VList []), w) /\
     show_records w = (Ok tt, w)).
Proof.
  intros Hl. split.
  - intros Hnone. split.
    + rewrite show_records_run, Hnone. reflexivity.
    + assert (log_of w = Some []) as Hlog by (unfold log_of; rewrite Hnone; reflexivity).
      pose proof (save_pet_data_run l d w [] Hl Hlog) as Hsave. cbv zeta in Hsave.
      eexists. split; [exact Hsave|].
      unfold stored_records. cbn [files]. rewrite lookup_insert_eq. reflexivity.
  - intros Hempty. split.
    + unfold open_json_load. rewrite Hempty. reflexivity.
    + rewrite show_records_run, Hempty. reflexivity.
Qed.
(** ** The report renderer *)

Lemma headings_sections (recommendations : list (string * string)) (rest : list flowable) :
  headings (section_flowables recommendations ++ rest) =
  map fst recommendations ++ headings rest.
Proof.
  unfold section_flowables.
  induction recommendations as [|[title body] more IH]; [reflexivity|].
  cbn [flat_map map fst snd app headings]. rewrite IH. reflexivity.
Qed.

Lemma titled_sections_sections (recommendations : list (string * string)) (rest : list flowable) :
  titled_sections (section_flowables recommendations ++ rest) =
  recommendations ++ titled_sections rest.
Proof.
  unfold section_flowables.
  induction recommendations as [|[title body] more IH]; [reflexivity|].
  cbn [flat_map fst snd app titled_sections]. rewrite IH. reflexivity.
Qed.

Lemma paragraph_texts_app (story rest : list flowable) :
  paragraph_texts (story ++ rest) = paragraph_texts story ++ paragraph_texts rest.
Proof.
  induction story as [|[text st|width height] story IH]; cbn [app paragraph_texts];
    rewrite ?IH; reflexivity.
Qed.

Lemma story_accepted_app (story rest : list flowable) :
  story_accepted (story ++ rest) = story_accepted story && story_accepted rest.
Proof. unfold story_accepted. rewrite paragraph_texts_app. apply forallb_app. Qed.

Lemma Paragraph_init_accepted (text : string) (st : style) :
  well_formed text = true -> Paragraph_init text st = Ok (Paragraph text st).
Proof.
  unfold well_formed, Paragraph_init. destruct (markup_error E text); [discriminate|reflexivity].
Qed.

Lemma Paragraph_init_refused (text : string) (st : style) :
  well_formed text = false ->
  exists msg, Paragraph_init text st = Raise (Exn ValueError msg).
Proof.
  unfold well_formed, Paragraph_init. destruct (markup_error E text) as [msg|];
    [eauto | discriminate].
Qed.

(** The loop over the sections appends three flowables per entry, in order,
    as long as no paragraph is refused; the first refusal ends it. *)
Lemma add_sections_cases (recommendations : list (string * string)) (story : list flowable) :
  (story_accepted (section_flowables recommendations) = true /\
   add_sections recommendations story = Ok (story ++ section_flowables recommendations)) \/
  (story_accepted (section_flowables recommendations) = false /\
   exists msg, add_sections recommendations story = Raise (Exn ValueError msg)).
Proof.
  revert story. induction recommendations as [|[title body] rest IH]; intros story.
  - left. split; [reflexivity|]. cbn. rewrite app_nil_r. reflexivity.
  - change (section_flowables ((title, body) :: rest))
      with ([Paragraph title Heading2; Paragraph body Normal; Spacer 1 12]
            ++ section_flowables rest).
    rewrite story_accepted_app.
    change (story_accepted [Paragraph title Heading2; Paragraph body Normal; Spacer 1 12])
      with (well_formed title && (well_formed body && true)).
    cbn [add_sections]. unfold add_section.
    destruct (well_formed title) eqn:Htitle.
    + rewrite (Paragraph_init_accepted _ Heading2 Htitle).
      destruct (well_formed body) eqn:Hbody.
      * rewrite (Paragraph_init_accepted _ Normal Hbody).
        cbn [andb]. cbn [mbind outcome_bind mret outcome_ret].
        destruct (IH (((story ++ [Paragraph title Heading2]) ++ [Paragraph body Normal])
                      ++ [Spacer 1 12])) as [[Hacc Hrun] | [Hacc [msg Hrun]]].
        -- left. split; [exact Hacc|]. rewrite Hrun, <- !app_assoc. reflexivity.
        -- right. split; [exact Hacc|]. exists msg. exact Hrun.
      * destruct (Paragraph_init_refused _ Normal Hbody) as [msg ->].
        right. split; [reflexivity|]. exists msg. reflexivity.
    + destruct (Paragraph_init_refused _ Heading2 Htitle) as [msg ->].
      right. split; [reflexivity|]. exists msg. reflexivity.
Qed.

(** One paragraph of [create_pdf]: taken, or refused with a [ValueError] that
    ends the call in the world [w0]. *)
Ltac paragraph_step text st H w0 :=
  rewrite run_lift_bind;
  destruct (well_formed text) eqn:H;
  [ rewrite (Paragraph_init_accepted text st H); cbv beta iota zeta
  | let msg := fresh "msg" in
    let Hmsg := fresh "Hmsg" in
    destruct (Paragraph_init_refused text st H) as [msg Hmsg]; rewrite Hmsg;
    right; (split; [reflexivity|]); exists msg, w0; split; [reflexivity | auto] ].

(** What [create_pdf] does once the profile's fields are found: it builds the
    story when reportlab constructs every paragraph, and otherwise leaves
    with the [ValueError] of the first paragraph that is refused, with
    nothing built. *)
Lemma create_pdf_cases (l : loc) (d : pydict) (recommendations : list (string * string))
    (w : world) (name : pyval) (summary : string) :
  heap w !! l = Some d ->
  getitem d "name" = Ok name ->
  pet_info_text d = Ok summary ->
  let story := report_story name summary recommendations (stamp w) in
  (story_accepted story = true /\
   create_pdf l recommendations w =
     (Ok (doc_build E story), log_event (DocBuild story) (after_clock_read w))) \/
  (story_accepted story = false /\
   exists msg w',
     create_pdf l recommendations w = (Raise (Exn ValueError msg), w') /\
     (w' = w \/ w' = after_clock_read w)).
Proof.
  intros Hl Hname Hsummary story. subst story. unfold report_story.
  rewrite !story_accepted_app.
  change (story_accepted
            [Paragraph ("Pet Care Report for " +:+ py_str name) title_style;
             Paragraph "Pet Information" Heading2; Paragraph summary Normal; Spacer 1 12])
    with (well_formed ("Pet Care Report for " +:+ py_str name) &&
          (well_formed "Pet Information" && (well_formed summary && true))).
  change (story_accepted
            [Paragraph ("Report Generated: " +:+ stamp w) Normal; Spacer 1 12;
             Paragraph disclaimer Italic])
    with (well_formed ("Report Generated: " +:+ stamp w) &&
          (well_formed disclaimer && true)).
  unfold create_pdf.
  rewrite (run_bind_ok _ _ _ _ _ (run_deref l d w Hl)).
  rewrite run_lift_bind, Hname. cbv beta iota zeta.
  unfold fstring. cbn [fold_right render py_str]. rewrite !string_app_nil_r.
  paragraph_step ("Pet Care Report for " +:+ py_str name) title_style Htitle w.
  paragraph_step "Pet Information" Heading2 Hheading w.
  rewrite run_lift_bind, Hsummary. cbv beta iota zeta.
  paragraph_step summary Normal Hsum w.
  cbn [andb app].
  rewrite run_lift_bind.
  match goal with
  | |- context [ add_sections recommendations ?s ] =>
      destruct (add_sections_cases recommendations s) as [[Hacc ->] | [Hacc [msg ->]]]
  end; rewrite Hacc; cbn [andb];
    [|right; split; [reflexivity|]; exists msg, w; split; [reflexivity | auto]].
  rewrite run_bind. unfold datetime_now. fold (stamp w) (after_clock_read w).
  cbv beta iota zeta.
  unfold fstring. cbn [fold_right render py_str]. rewrite !string_app_nil_r.
  paragraph_step ("Report Generated: " +:+ stamp w) Normal Hgen (after_clock_read w).
  paragraph_step disclaimer Italic Hdis (after_clock_read w).
  left. split; [reflexivity|].
  unfold doc_build_into_buffer. cbn [app]. rewrite <- !app_assoc. reflexivity.
Qed.

(** The report is built when every paragraph is taken. *)
Lemma create_pdf_run (l : loc) (d : pydict) (recommendations : list (string * string))
    (w : world) (name : pyval) (summary : string) :
  heap w !! l = Some d ->
  getitem d "name" = Ok name ->
  pet_info_text d = Ok summary ->
  let story := report_story name summary recommendations (stamp w) in
  story_accepted story = true ->
  create_pdf l recommendations w =
    (Ok (doc_build E story), log_event (DocBuild story) (after_clock_read w)).
Proof.
  intros Hl Hname Hsummary story Hacc.
  destruct (create_pdf_cases l d recommendations w name summary Hl Hname Hsummary)
    as [[_ Hrun] | [Hno _]]; [exact Hrun|].
  fold story in Hno. congruence.
Qed.

(** A report that was built is that story, and every paragraph was taken. *)
Lemma create_pdf_built (l : loc) (d : pydict) (recommendations : list (string * string))
    (w w' : world) (name : pyval) (summary buffer : string) :
  heap w !! l = Some d ->
  getitem d "name" = Ok name ->
  pet_info_text d = Ok summary ->
  create_pdf l recommendations w = (Ok buffer, w') ->
  let story := report_story name summary recommendations (stamp w) in
  story_accepted story = true /\
  buffer = doc_build E story /\
  w' = log_event (DocBuild story) (after_clock_read w).
Proof.
  intros Hl Hname Hsummary Hrun story.
  destruct (create_pdf_cases l d recommendations w name summary Hl Hname Hsummary)
    as [[Hacc Hok] | [_ (msg & w1 & Hraise & _)]].
  - rewrite Hok in Hrun. injection Hrun as <- <-. auto.
  - rewrite Hraise in Hrun. discriminate.
Qed.

Lemma headings_report_story (name : pyval) (summary : string)
    (recommendations : list (string * string)) (generated : string) :
  headings (report_story name summary recommendations generated) =
  "Pet Information" :: map fst recommendations.
Proof.
  unfold report_story. cbn [app headings]. rewrite headings_sections.
  cbn [headings]. rewrite app_nil_r. reflexivity.
Qed.

Lemma titled_sections_report_story (name : pyval) (summary : string)
    (recommendations : list (string * string)) (generated : string) :
  titled_sections (report_story name summary recommendations generated) =
  ("Pet Information", summary) :: recommendations.
Proof.
  unfold report_story. cbn [app titled_sections]. rewrite titled_sections_sections.
  cbn [titled_sections]. rewrite app_nil_r. reflexivity.
Qed.

Lemma last_report_story (name : pyval) (summary : string)
    (recommendations : list (string * string)) (generated : string) :
  last (report_story name summary recommendations generated) =
  Some (Paragraph disclaimer Italic).
Proof.
  unfold report_story. rewrite !app_assoc.
  change [Paragraph ("Report Generated: " +:+ generated) Normal; Spacer 1 12;
          Paragraph disclaimer Italic]
    with ([Paragraph ("Report Generated: " +:+ generated) Normal; Spacer 1 12]
          ++ [Paragraph disclaimer Italic]).
  rewrite app_assoc. apply last_snoc.
Qed.

(** C8.  Whenever [create_pdf] builds the report for a profile and a mapping
    of sections, the report has, after the profile block, one titled section
    per entry of the mapping, title and text as supplied and in the mapping's
    order, and it ends with the fixed disclaimer, which says that the report
    was generated by artificial intelligence and does not replace
    professional veterinary advice.  The report is built exactly when
    reportlab takes every paragraph of that story; when it refuses one,
    [create_pdf] raises its [ValueError] and builds nothing. *)
Theorem create_pdf_sections_and_disclaimer
    (p : PetProfile) (l : loc) (recommendations : list (string * string)) (w : world) :
  heap w !! l = Some (pet_info_dict p) ->
  exists story summary,
    (story_accepted story = true ->
       create_pdf l recommendations w =
         (Ok (doc_build E story), log_event (DocBuild story) (after_clock_read w))) /\
    (story_accepted story = false ->
       exists e w', create_pdf l recommendations w = (Raise e, w') /\
                    exn_cls e = ValueError /\ trace w' = trace w) /\
    (forall buffer w',
       create_pdf l recommendations w = (Ok buffer, w') ->
       buffer = doc_build E story /\
       w' = log_event (DocBuild story) (after_clock_read w)) /\
    headings story = "Pet Information" :: map fst recommendations /\
    titled_sections story = ("Pet Information", summary) :: recommendations /\
    last story = Some (Paragraph disclaimer Italic) /\
    contains "This report was generated using artificial intelligence" disclaimer = true /\
    contains "they should not replace professional veterinary advice" disclaimer = true.
Proof.
  intros Hl.
  pose proof (create_pdf_cases l _ recommendations w (VStr (name p)) _ Hl eq_refl eq_refl)
    as Hcases.
  cbv zeta in Hcases.
  eexists (report_story (VStr (name p)) _ recommendations (stamp w)), _.
  split; [|split; [|split; [|split; [|split; [|split; [|split]]]]]].
  - intros Hacc. destruct Hcases as [[_ Hrun] | [Hno _]]; [exact Hrun | congruence].
  - intros Hno. destruct Hcases as [[Hacc _] | [_ (msg & w' & Hrun & Hw)]]; [congruence|].
    exists (Exn ValueError msg), w'. split; [exact Hrun|]. split; [reflexivity|].
    destruct Hw as [-> | ->]; reflexivity.
  - intros buffer w' Hrun.
    destruct Hcases as [[_ Hok] | [_ (msg & w1 & Hraise & _)]].
    + rewrite Hok in Hrun. injection Hrun as <- <-. auto.
    + rewrite Hraise in Hrun. discriminate.
  - apply headings_report_story.
  - apply titled_sections_report_story.
  - apply last_report_story.
  - vm_compute. reflexivity.
  - vm_compute. reflexivity.
Qed.

(** ** The prompt builders *)

Lemma strftime_month (now : datetime) : strftime "%B" now = month_name (month_of now).
Proof.
  change (strftime "%B" now) with (month_name (month_of now) +:+ "").
  apply string_app_nil_r.
Qed.

(** [x or 'None'] on a text field. *)
Lemma py_or_none (s : string) :
  py_str (py_or (VStr s) (VStr "None")) = if String.eqb s "" then "None" else s.
Proof. unfold py_or. cbn [truthy]. destruct (String.eqb s ""); reflexivity. Qed.

(** Closes a goal [occurs_in sub (fstring segs)] where [sub] is the value
    of slot [i + 1] with the end [label] of the literal before it and the
    start [closing] of the literal after it. *)
Ltac slot i label closing :=
  eapply (fstring_slot _ i _ _ label closing);
  [ reflexivity | reflexivity | reflexivity
  | vm_compute; reflexivity | vm_compute; reflexivity
  | rewrite ?py_or_none; reflexivity ].

(** C2.  An empty health-conditions or allergies field is rendered as the
    text [None] in its slot of the diet prompt and of the report's profile
    summary (a paragraph of every report that [create_pdf] builds for the
    profile): the label is followed by [None] and the end of the line, and
    the whole text is the one a profile with [None] typed into the field
    gets.  For Rex, with no health conditions and an allergy to chicken, the
    diet prompt reads [Allergies: Chicken] and [Health Conditions: None]. *)
Theorem empty_fields_render_as_None (p : PetProfile) :
  exists prompt summary,
    diet_prompt (pet_info_dict p) = Ok prompt /\
    pet_info_text (pet_info_dict p) = Ok summary /\
    (forall l recommendations w buffer w',
       heap w !! l = Some (pet_info_dict p) ->
       create_pdf l recommendations w = (Ok buffer, w') ->
       exists story,
         buffer = doc_build E story /\
         w' = log_event (DocBuild story) (after_clock_read w) /\
         In (Paragraph summary Normal) story) /\
    (health_conditions p = "" ->
       occurs_in ("Health Conditions: None" +:+ nl) prompt /\
       occurs_in ("Health Conditions: None" +:+ nl) summary /\
       diet_prompt (pet_info_dict (with_health_conditions "None" p)) = Ok prompt /\
       pet_info_text (pet_info_dict (with_health_conditions "None" p)) = Ok summary) /\
    (allergies p = "" ->
       occurs_in ("Allergies: None" +:+ nl) prompt /\
       occurs_in ("Allergies: None" +:+ nl) summary /\
       diet_prompt (pet_info_dict (with_allergies "None" p)) = Ok prompt /\
       pet_info_text (pet_info_dict (with_allergies "None" p)) = Ok summary) /\
    (p = rex ->
       occurs_in "Allergies: Chicken" prompt /\
       occurs_in "Health Conditions: None" prompt).
Proof.
  eexists _, _.
  split; [reflexivity|]. split; [reflexivity|].
  split; [|split; [|split]].
  - intros l recommendations w buffer w' Hl Hrun.
    pose proof (create_pdf_built l _ recommendations w w' (VStr (name p)) _ buffer
                  Hl eq_refl eq_refl Hrun) as (_ & Hbuffer & Hw).
    eexists. split; [exact Hbuffer|]. split; [exact Hw|].
    unfold report_story. cbn [app In]. auto.
  - intros Hempty. rewrite Hempty. repeat split.
    + slot 8 "Health Conditions: " nl.
    + slot 8 "Health Conditions: " nl.
  - intros Hempty. rewrite Hempty. repeat split.
    + slot 10 "Allergies: " nl.
    + slot 10 "Allergies: " nl.
  - intros ->. split.
    + slot 10 "Allergies: " "".
    + slot 8 "Health Conditions: " "".
Qed.

(** C9, as the code has it.  Each category's prompt carries the fields its
    own template names: the diet prompt species, breed, age, weight, health
    conditions and allergies; the care prompt the first five; the emergency
    prompt species and breed; the training prompt species, breed and age; the
    seasonal prompt the current month, species and breed; the comparison
    prompt the previous record's timestamp, weight and health conditions and
    the current weight and health conditions. *)
Theorem prompts_interpolate_their_fields (p previous : PetProfile) (now : datetime) :
  let d := pet_info_dict p in
  let prev := VDict (pet_info_dict previous) in
  let none_if_empty := fun s : string => if String.eqb s "" then "None" else s in
  (exists s, category_prompt Diet now d prev = Ok s /\
     occurs_in ("Species: " +:+ species_str (species p) +:+ nl) s /\
     occurs_in ("Breed: " +:+ breed p +:+ nl) s /\
     occurs_in ("Age: " +:+ float_repr E (age p) +:+ " years") s /\
     occurs_in ("Weight: " +:+ float_repr E (weight p) +:+ " kg") s /\
     occurs_in ("Health Conditions: " +:+ none_if_empty (health_conditions p) +:+ nl) s /\
     occurs_in ("Allergies: " +:+ none_if_empty (allergies p) +:+ nl) s) /\
  (exists s, category_prompt Care now d prev = Ok s /\
     occurs_in ("Species: " +:+ species_str (species p) +:+ nl) s /\
     occurs_in ("Breed: " +:+ breed p +:+ nl) s /\
     occurs_in ("Age: " +:+ float_repr E (age p) +:+ " years") s /\
     occurs_in ("Weight: " +:+ float_repr E (weight p) +:+ " kg") s /\
     occurs_in ("Health Conditions: " +:+ none_if_empty (health_conditions p) +:+ nl) s) /\
  (exists s, category_prompt Emergency now d prev = Ok s /\
     occurs_in ("guidelines for a " +:+ species_str (species p) +:+ ", ") s /\
     occurs_in (", " +:+ breed p +:+ ".") s) /\
  (exists s, category_prompt Training now d prev = Ok s /\
     occurs_in ("tips for a " +:+ species_str (species p) +:+ ", ") s /\
     occurs_in (", " +:+ breed p +:+ ", ") s /\
     occurs_in (", " +:+ float_repr E (age p) +:+ " years old.") s) /\
  (exists s, category_prompt Seasonal now d prev = Ok s /\
     occurs_in ("care tips for " +:+ month_name (month_of now) +:+ " for a ") s /\
     occurs_in (" for a " +:+ species_str (species p) +:+ ", ") s /\
     occurs_in (", " +:+ breed p +:+ ".") s) /\
  (exists s, category_prompt Comparison now d prev = Ok s /\
     occurs_in ("Previous Report (" +:+ timestamp previous +:+ "):") s /\
     occurs_in ("Weight: " +:+ float_repr E (weight previous) +:+ " kg") s /\
     occurs_in ("Health: " +:+ none_if_empty (health_conditions previous) +:+ nl) s /\
     occurs_in ("Weight: " +:+ float_repr E (weight p) +:+ " kg") s /\
     occurs_in ("Health: " +:+ none_if_empty (health_conditions p) +:+ nl) s).
Proof.
  intros d prev none_if_empty. subst d prev none_if_empty.
  repeat split.
  - eexists. split; [reflexivity|]. repeat split.
    + slot 0 "Species: " nl.
    + slot 2 "Breed: " nl.
    + slot 4 "Age: " " years".
    + slot 6 "Weight: " " kg".
    + slot 8 "Health Conditions: " nl.
    + slot 10 "Allergies: " nl.
  - eexists. split; [reflexivity|]. repeat split.
    + slot 0 "Species: " nl.
    + slot 2 "Breed: " nl.
    + slot 4 "Age: " " years".
    + slot 6 "Weight: " " kg".
    + slot 8 "Health Conditions: " nl.
  - eexists. split; [reflexivity|]. repeat split.
    + slot 0 "guidelines for a " ", ".
    + slot 2 ", " ".".
  - eexists. split; [reflexivity|]. repeat split.
    + slot 0 "tips for a " ", ".
    + slot 2 ", " ", ".
    + slot 4 ", " " years old.".
  - eexists. split; [reflexivity|]. rewrite strftime_month. repeat split.
    + slot 0 "care tips for " " for a ".
    + slot 2 " for a " ", ".
    + slot 4 ", " ".".
  - eexists. split; [reflexivity|]. repeat split.
    + slot 0 "Previous Report (" "):".
    + slot 2 "Weight: " " kg".
    + slot 4 "Health: " nl.
    + slot 6 "Weight: " " kg".
    + slot 8 "Health: " nl.
Qed.

(** ** The panels *)

Lemma truthy_text (s : string) : s <> "" -> truthy (VStr s) = true.
Proof.
  intros Hne. cbn [truthy]. destruct (String.eqb_spec s ""); [contradiction | reflexivity].
Qed.

Lemma extends_log_event (ev : event) (w : world) : extends w (log_event ev w).
Proof. exists [ev]. reflexivity. Qed.

Lemma extends_emit (ev : event) : keeps extends (emit ev).
Proof. intros w r w' H. injection H as _ <-. apply extends_log_event. Qed.

Lemma extends_datetime_now : keeps extends datetime_now.
Proof. intros w r w' H. eapply quiet_extends, quiet_datetime_now, H. Qed.

Lemma extends_store (l : loc) (d : pydict) : keeps extends (store l d).
Proof.
  intros w r w' H. injection H as _ <-.
  exists []. cbn [trace set_heap]. rewrite app_nil_r. reflexivity.
Qed.

Lemma extends_write_document (filename : string) (doc : pyval) :
  keeps extends (write_document filename doc).
Proof.
  intros w r w' H. injection H as _ <-.
  exists [FileWrite filename doc]. reflexivity.
Qed.

Lemma extends_doc_build (story : list flowable) : keeps extends (doc_build_into_buffer story).
Proof. intros w r w' H. injection H as _ <-. apply extends_log_event. Qed.

Ltac extends_steps :=
  repeat first
    [ apply keeps_bind; [exact extends_trans | | intros ?]
    | apply keeps_deref; exact extends_refl
    | apply keeps_lift; exact extends_refl
    | apply keeps_ret; exact extends_refl
    | apply keeps_os_path_exists; exact extends_refl
    | apply keeps_open_json_load; exact extends_refl
    | apply extends_datetime_now
    | apply extends_store
    | apply extends_write_document
    | apply extends_doc_build
    | apply extends_emit ].

Lemma extends_resolve_all (xs : list item) : keeps extends (resolve_all xs).
Proof.
  induction xs as [|x xs IH]; cbn [resolve_all]; [extends_steps|].
  apply keeps_bind; [exact extends_trans | | intros v].
  - destruct x; unfold resolve; extends_steps.
  - apply keeps_bind; [exact extends_trans | exact IH | intros vs]. extends_steps.
Qed.

Lemma extends_create_pdf (l : loc) (recommendations : list (string * string)) :
  keeps extends (create_pdf l recommendations).
Proof. unfold create_pdf. extends_steps. Qed.

Lemma extends_save_pet_data (l : loc) : keeps extends (save_pet_data l).
Proof.
  unfold save_pet_data, setitem, open_json_dump. extends_steps.
  - destruct a; extends_steps.
  - apply extends_resolve_all.
Qed.

(** C3.  On a successful API call [generate_recommendation] returns the
    content of the first choice as it is, and shows no error.  Each panel
    hands the value it got back to [st.markdown] unchanged, under its header:
    what is displayed is the returned text itself.  (A result that is absent
    or empty is not shown, and the Care Guide panel shows its two texts
    together.) *)
Theorem first_completion_is_returned_and_displayed :
  (forall prompt w c first rest,
     groq_create E (api_calls w) (chat_request prompt) = Ok c ->
     choices c = first :: rest ->
     generate_recommendation prompt w =
       (Ok (msg_content (message first)), after_request prompt w)) /\
  (forall l w w1 result,
     generate_emergency_guide l
       (log_event (StSpinner "Generating emergency care guide...") w) = (Ok result, w1) ->
     exists w2,
       emergency_tab true l w = (Ok tt, w2) /\
       trace w2 = trace w1 ++
         match result with
         | Some text =>
             if truthy (VStr text) then
               [ StHeader "🚨 Emergency Care Guide";
                 StMarkdown text false;
                 StMarkdown "---" false;
                 StMarkdown "### 📞 Emergency Contacts" false;
                 StMarkdown "• Clinic Hours: 24/7" false;
                 StMarkdown "• Emergency Number: [Your Clinic Phone]" false;
                 StMarkdown "• After Hours Care: Available" false ]
             else []
         | None => []
         end) /\
  (forall l w w1 result,
     generate_training_tips l
       (log_event (StSpinner "Generating training recommendations...") w) = (Ok result, w1) ->
     exists w2,
       training_tab true l w = (Ok tt, w2) /\
       trace w2 = trace w1 ++
         match result with
         | Some text =>
             if truthy (VStr text)
             then [StHeader "🎓 Training Guide"; StMarkdown text false]
             else []
         | None => []
         end) /\
  (forall l w w1 result,
     generate_seasonal_care l
       (log_event (StSpinner "Generating seasonal care guide...") w) = (Ok result, w1) ->
     exists w2,
       seasonal_tab true l w = (Ok tt, w2) /\
       trace w2 = trace w1 ++
         match result with
         | Some text =>
             if truthy (VStr text)
             then [StHeader "🌤️ Seasonal Care Guide"; StMarkdown text false]
             else []
         | None => []
         end) /\
  (forall l previous w w1 result,
     truthy previous = true ->
     analyze_previous_report l previous
       (log_event (StSpinner "Analyzing changes from previous report...") w) = (Ok result, w1) ->
     exists w2,
       analysis_tab true l previous w = (Ok tt, w2) /\
       trace w2 = trace w1 ++
         match result with
         | Some text =>
             if truthy (VStr text)
             then [StHeader "📊 Changes Analysis"; StMarkdown text false]
             else []
         | None => []
         end) /\
  (forall l w w1 w2 diet_rec care_rec,
     generate_diet_recommendation l
       (log_event (StSpinner "Generating comprehensive care guide...") w) = (Ok diet_rec, w1) ->
     generate_care_recommendation l w1 = (Ok care_rec, w2) ->
     exists r w3 more,
       care_tab true l w = (r, w3) /\
       trace w3 = trace w2 ++
         match diet_rec, care_rec with
         | Some diet, Some care =>
             if truthy (VStr diet) && truthy (VStr care) then
               [ StHeader "🍽️ Diet Recommendations";
                 StMarkdown diet false;
                 StHeader "💝 Care Recommendations";
                 StMarkdown care false ] ++ more
             else []
         | _, _ => []
         end).
Proof.
  repeat apply conj.
  - intros prompt w c first rest Hcall Hchoices.
    rewrite generate_recommendation_run, Hcall, Hchoices. reflexivity.
  - intros l w w1 result Hrec. unfold emergency_tab.
    rewrite run_bind. unfold st_spinner at 1, emit at 1.
    rewrite (run_bind_ok _ _ _ _ _ Hrec).
    destruct result as [text|]; [destruct (truthy (VStr text))|];
      (eexists; split; [reflexivity|]); cbn [trace log_event];
      rewrite <- ?app_assoc, ?app_nil_r; reflexivity.
  - intros l w w1 result Hrec. unfold training_tab.
    rewrite run_bind. unfold st_spinner at 1, emit at 1.
    rewrite (run_bind_ok _ _ _ _ _ Hrec).
    destruct result as [text|]; [destruct (truthy (VStr text))|];
      (eexists; split; [reflexivity|]); cbn [trace log_event];
      rewrite <- ?app_assoc, ?app_nil_r; reflexivity.
  - intros l w w1 result Hrec. unfold seasonal_tab.
    rewrite run_bind. unfold st_spinner at 1, emit at 1.
    rewrite (run_bind_ok _ _ _ _ _ Hrec).
    destruct result as [text|]; [destruct (truthy (VStr text))|];
      (eexists; split; [reflexivity|]); cbn [trace log_event];
      rewrite <- ?app_assoc, ?app_nil_r; reflexivity.
  - intros l previous w w1 result Hprev Hrec. unfold analysis_tab.
    rewrite Hprev. cbn [andb].
    rewrite run_bind. unfold st_spinner at 1, emit at 1.
    rewrite (run_bind_ok _ _ _ _ _ Hrec).
    destruct result as [text|]; [destruct (truthy (VStr text))|];
      (eexists; split; [reflexivity|]); cbn [trace log_event];
      rewrite <- ?app_assoc, ?app_nil_r; reflexivity.
  - intros l w w1 w2 diet_rec care_rec Hdiet Hcare. unfold care_tab.
    rewrite run_bind. unfold st_spinner at 1, emit at 1.
    rewrite (run_bind_ok _ _ _ _ _ Hdiet), (run_bind_ok _ _ _ _ _ Hcare).
    destruct diet_rec as [diet|], care_rec as [care|];
      try (exists (Ok tt), w2, []; rewrite app_nil_r; split; reflexivity).
    destruct (truthy (VStr diet) && truthy (VStr care));
      [|exists (Ok tt), w2, []; rewrite app_nil_r; split; reflexivity].
    rewrite run_bind. unfold st_header at 1, emit at 1.
    rewrite run_bind. unfold st_markdown at 1, emit at 1.
    rewrite run_bind. unfold st_header at 1, emit at 1.
    rewrite run_bind. unfold st_markdown at 1, emit at 1.
    match goal with
    | |- context [ (create_pdf l ?recs ≫= ?k) ?w0 ] =>
        set (shown := w0);
        assert (keeps extends (create_pdf l recs ≫= k)) as Hrest
    end.
    { apply keeps_bind; [exact extends_trans | apply extends_create_pdf | intros buffer].
      apply keeps_bind; [exact extends_trans | apply extends_emit | intros _].
      apply extends_save_pet_data. }
    match goal with
    | |- context [ ?m shown ] => destruct (m shown) as [r w3] eqn:Hrun
    end.
    destruct (Hrest _ _ _ Hrun) as [more Hmore].
    exists r, w3, more. split; [reflexivity|].
    rewrite Hmore. unfold shown. cbn [trace log_event].
    rewrite <- !app_assoc. reflexivity.
Qed.

(** ** The Care Guide panel on success, and [main] *)

(** X1.  When both calls come back with text and reportlab takes every
    paragraph of the report (the title with the pet's name, the profile
    summary, the two section titles and texts, the stamp line and the
    disclaimer), the Care Guide panel shows both texts, builds the report
    with the two sections, offers it for download and appends the profile to
    the record store. *)
Theorem care_tab_success
    (p : PetProfile) (l : loc) (w w1 w2 : world) (old : list pyval)
    (diet care summary : string) :
  heap w !! l = Some (pet_info_dict p) ->
  log_of w = Some old ->
  generate_diet_recommendation l
    (log_event (StSpinner "Generating comprehensive care guide...") w) = (Ok (Some diet), w1) ->
  generate_care_recommendation l w1 = (Ok (Some care), w2) ->
  diet <> "" ->
  care <> "" ->
  pet_info_text (pet_info_dict p) = Ok summary ->
  let story :=
    report_story (VStr (name p)) summary
      [("Diet Recommendations", diet); ("Care Recommendations", care)] (stamp w2) in
  story_accepted story = true ->
  let saved := pet_info_dict (with_timestamp (stamp (after_clock_read w2)) p) in
  exists w3,
    care_tab true l w = (Ok tt, w3) /\
    trace w3 = trace w2 ++
      [ StHeader "🍽️ Diet Recommendations";
        StMarkdown diet false;
        StHeader "💝 Care Recommendations";
        StMarkdown care false;
        DocBuild story;
        StMarkdown (get_download_link (doc_build E story)) true;
        FileWrite "pet_data.json" (VList (old ++ [VDict saved])) ] /\
    titled_sections story =
      [ ("Pet Information", summary);
        ("Diet Recommendations", diet);
        ("Care Recommendations", care) ] /\
    stored_records w3 = Some (old ++ [VDict saved]).
Proof.
  intros Hl Hlog Hdiet Hcare Hd Hc Hsummary story Haccepted saved.
  assert (quiet w w2) as (Hheap & Hfiles & _).
  { eapply quiet_trans;
      [apply (quiet_log_event (StSpinner "Generating comprehensive care guide...") w);
       reflexivity |].
    eapply quiet_trans.
    - eapply quiet_generate_diet_recommendation, Hdiet.
    - eapply quiet_generate_care_recommendation, Hcare. }
  unfold care_tab.
  rewrite run_bind. unfold st_spinner at 1, emit at 1.
  rewrite (run_bind_ok _ _ _ _ _ Hdiet), (run_bind_ok _ _ _ _ _ Hcare).
  rewrite (truthy_text _ Hd), (truthy_text _ Hc). cbn [andb].
  rewrite run_bind. unfold st_header at 1, emit at 1.
  rewrite run_bind. unfold st_markdown at 1, emit at 1.
  rewrite run_bind. unfold st_header at 1, emit at 1.
  rewrite run_bind. unfold st_markdown at 1, emit at 1.
  match goal with
  | |- context [ (create_pdf l ?recs ≫= _) ?w0 ] => set (shown := w0)
  end.
  assert (heap shown !! l = Some (pet_info_dict p)) as Hl'.
  { unfold shown. cbn [heap log_event]. rewrite Hheap. exact Hl. }
  pose proof (create_pdf_run l _
                [("Diet Recommendations", diet); ("Care Recommendations", care)]
                shown (VStr (name p)) summary Hl' eq_refl Hsummary Haccepted) as Hpdf.
  rewrite (run_bind_ok _ _ _ _ _ Hpdf).
  rewrite run_bind. unfold st_markdown at 1, emit at 1.
  match goal with
  | |- context [ save_pet_data l ?w0 ] => set (offered := w0)
  end.
  assert (heap offered !! l = Some (pet_info_dict p)) as Hl''.
  { unfold offered, shown. cbn [heap log_event after_clock_read]. rewrite Hheap. exact Hl. }
  assert (log_of offered = Some old) as Hlog'.
  { unfold log_of, offered, shown. cbn [files log_event after_clock_read].
    rewrite Hfiles. exact Hlog. }
  pose proof (save_pet_data_run l _ offered old Hl'' Hlog') as Hsave.
  cbv zeta in Hsave. rewrite dict_set_timestamp in Hsave.
  eexists. split; [exact Hsave|].
  split; [|split].
  - unfold offered, shown. cbn [trace log_event after_clock_read].
    rewrite <- !app_assoc. reflexivity.
  - apply titled_sections_report_story.
  - unfold stored_records. cbn [files]. rewrite lookup_insert_eq. reflexivity.
Qed.

(** X2.  A run of the script with only "Save Health Record" pressed, on a store
    that holds a log: the form's profile, stamped at the append, is added to
    the log, the success message is shown, and the records panel hands the
    whole log to pandas.  It shows the frame when pandas builds one; when
    pandas refuses the log, the run ends there with pandas' exception, the
    record saved and the success message shown. *)
Theorem main_saves_the_form
    (ui : widgets) (w : world) (old : list pyval) :
  uploaded_file ui = None ->
  care_button ui = false ->
  emergency_button ui = false ->
  training_button ui = false ->
  seasonal_button ui = false ->
  save_button ui = true ->
  log_of w = Some old ->
  let saved :=
    pet_info_dict
      (Profile (pet_name ui) (pet_type ui) (breed_input ui) (age_input ui)
               (weight_input ui) (health_conditions_input ui)
               (favorite_foods_input ui) (allergies_input ui)
               (stamp (after_clock_read w))) in
  let log := VList (old ++ [VDict saved]) in
  let shown :=
    [ StTitle "🐾 Advanced Pet Care Assistant";
      StHeader "Pet Information";
      StHeader "Food Preferences & Allergies";
      StHeader "📋 Health Records";
      FileWrite "pet_data.json" log;
      StSuccess "Health record saved successfully!" ] in
  exists w',
    stored_records w' = Some (old ++ [VDict saved]) /\
    match dataframe_error E log with
    | None =>
        main ui w = (Ok tt, w') /\
        trace w' = trace w ++ shown ++ [StDataframe log]
    | Some e =>
        main ui w = (Raise e, w') /\
        trace w' = trace w ++ shown
    end.
Proof.
  intros Hup Hcare Hemergency Htraining Hseasonal Hsave Hlog saved log shown.
  enough (exists saved_world,
            stored_records saved_world = Some (old ++ [VDict saved]) /\
            trace saved_world = trace w ++ shown /\
            main ui w =
              match dataframe_error E log with
              | None => (Ok tt, log_event (StDataframe log) saved_world)
              | Some e => (Raise e, saved_world)
              end) as (saved_world & Hstored & Htrace & Hmain).
  { destruct (dataframe_error E log) as [e|].
    - exists saved_world. auto.
    - exists (log_event (StDataframe log) saved_world).
      split; [exact Hstored|]. split; [exact Hmain|].
      cbn [trace log_event]. rewrite Htrace, <- app_assoc. reflexivity. }
  unfold main. rewrite Hup, Hcare, Hemergency, Htraining, Hseasonal, Hsave.
  rewrite run_bind. unfold st_title at 1, emit at 1.
  rewrite run_bind. unfold mret at 1, M_ret at 1.
  rewrite run_bind. unfold st_header at 1, emit at 1.
  rewrite run_bind. unfold st_header at 1, emit at 1.
  rewrite run_bind. unfold datetime_now at 1.
  rewrite run_bind. unfold new_dict at 1.
  match goal with
  | |- context [ (care_tab false ?l ≫= _) ?w0 ] => set (pet_info := l); set (w0' := w0)
  end.
  rewrite run_bind. unfold care_tab at 1, mret at 1, M_ret at 1.
  rewrite run_bind. unfold emergency_tab at 1, mret at 1, M_ret at 1.
  rewrite run_bind. unfold training_tab at 1, mret at 1, M_ret at 1.
  rewrite run_bind. unfold seasonal_tab at 1, mret at 1, M_ret at 1.
  unfold analysis_tab. cbn [truthy andb].
  unfold records_tab.
  rewrite run_bind.
  rewrite run_bind. unfold st_header at 1, emit at 1.
  rewrite run_bind.
  set (w1 := log_event (StHeader "📋 Health Records") w0').
  assert (heap w1 !! pet_info = Some
            (pet_info_dict
               (Profile (pet_name ui) (pet_type ui) (breed_input ui) (age_input ui)
                        (weight_input ui) (health_conditions_input ui)
                        (favorite_foods_input ui) (allergies_input ui)
                        (stamp w)))) as Hl.
  { unfold w1, w0'. cbn [heap log_event set_heap]. apply lookup_insert_eq. }
  assert (log_of w1 = Some old) as Hlog1 by exact Hlog.
  pose proof (save_pet_data_run pet_info _ w1 old Hl Hlog1) as Hrun.
  cbv zeta in Hrun. rewrite dict_set_timestamp in Hrun.
  rewrite (run_bind_ok _ _ _ _ _ Hrun).
  unfold st_success at 1, emit at 1.
  rewrite show_records_run. cbn [files log_event]. rewrite lookup_insert_eq.
  cbn [truthy]. rewrite length_app, Nat.add_comm. cbn [Nat.eqb Nat.add length negb].
  match goal with
  | |- context [ dataframe_error E (VList (old ++ [VDict (pet_info_dict ?q)])) ] =>
      change (pet_info_dict q) with saved
  end.
  fold log.
  destruct (dataframe_error E log) as [e|];
    (eexists; split; [|split; [|reflexivity]]).
  - unfold stored_records. cbn [files log_event]. rewrite lookup_insert_eq. reflexivity.
  - unfold w1, w0'. cbn [trace log_event set_heap]. rewrite <- !app_assoc. reflexivity.
  - unfold stored_records. cbn [files log_event]. rewrite lookup_insert_eq. reflexivity.
  - unfold w1, w0'. cbn [trace log_event set_heap]. rewrite <- !app_assoc. reflexivity.
Qed.

(** Showing a result that may be absent or empty. *)
Lemma quiet_show (result : option string) (show : string -> M unit) :
  (forall text, keeps quiet (show text)) ->
  keeps quiet
    match result with
    | Some rec => if truthy (VStr rec) then show rec else mret tt
    | None => mret tt
    end.
Proof.
  intros Hshow. destruct result as [text|]; [destruct (truthy (VStr text))|];
    auto using keeps_ret, quiet_refl.
Qed.

(** X4.  The emergency, training, seasonal and analysis panels only ask and
    show: whatever the API does, they build no document, offer no download
    and write no file, and they leave the profile's dictionary alone. *)
Theorem advice_panels_are_quiet (clicked : bool) (l : loc) (previous : pyval) :
  keeps quiet (emergency_tab clicked l) /\
  keeps quiet (training_tab clicked l) /\
  keeps quiet (seasonal_tab clicked l) /\
  keeps quiet (analysis_tab clicked l previous).
Proof.
  unfold emergency_tab, training_tab, seasonal_tab, analysis_tab.
  unfold st_spinner, st_header, st_markdown.
  split; [|split; [|split]].
  - destruct clicked; [|apply keeps_ret, quiet_refl].
    apply keeps_bind; [exact quiet_trans | apply quiet_emit; reflexivity | intros _].
    apply keeps_bind; [exact quiet_trans | apply quiet_generate_emergency_guide | intros rec].
    apply quiet_show. intros text. quiet_steps.
  - destruct clicked; [|apply keeps_ret, quiet_refl].
    apply keeps_bind; [exact quiet_trans | apply quiet_emit; reflexivity | intros _].
    apply keeps_bind; [exact quiet_trans | apply quiet_generate_training_tips | intros rec].
    apply quiet_show. intros text. quiet_steps.
  - destruct clicked; [|apply keeps_ret, quiet_refl].
    apply keeps_bind; [exact quiet_trans | apply quiet_emit; reflexivity | intros _].
    apply keeps_bind; [exact quiet_trans | apply quiet_generate_seasonal_care | intros rec].
    apply quiet_show. intros text. quiet_steps.
  - destruct (truthy previous && clicked); [|apply keeps_ret, quiet_refl].
    apply keeps_bind; [exact quiet_trans | apply quiet_emit; reflexivity | intros _].
    apply keeps_bind; [exact quiet_trans | apply quiet_analyze_previous_report | intros rec].
    apply quiet_show. intros text. quiet_steps.
Qed.

(** ** What the functions send, read and leave alone *)

Lemma bind_getitem {B : Type} (d : pydict) (k : string) (f : pyval -> outcome B) :
  (getitem d k ≫= f) =
  match dict_get k d with
  | Some v => f v
  | None => Raise (Exn KeyError (str_repr E k))
  end.
Proof. unfold getitem. destruct (dict_get k d); reflexivity. Qed.

(** One run of the client: one request, at most one error message, and
    nothing else changes. *)
Lemma generate_recommendation_effects
    (prompt : string) (w w' : world) (r : outcome (option string)) :
  generate_recommendation prompt w = (r, w') ->
  heap w' = heap w /\ files w' = files w /\ clock_reads w' = clock_reads w /\
  api_calls w' = S (api_calls w) /\
  (trace w' = trace w ++ [GroqCreate (chat_request prompt)] \/
   exists msg, r = Ok None /\
               trace w' = trace w ++ [GroqCreate (chat_request prompt); StError msg]).
Proof.
  rewrite generate_recommendation_run.
  destruct (groq_create E (api_calls w) (chat_request prompt)) as [c|e].
  - destruct (choices c); intros H; injection H as <- <-; repeat split; auto.
    right. eexists. split; [reflexivity|].
    cbn [trace log_event after_request]. rewrite <- app_assoc. reflexivity.
  - destruct (isinstance_Exception e); intros H; injection H as <- <-; repeat split; auto.
    right. eexists. split; [reflexivity|].
    cbn [trace log_event after_request]. rewrite <- app_assoc. reflexivity.
Qed.

(** X5.  Each of the six functions that ask for advice looks the profile up
    on the heap, builds its category's prompt and hands it to the client: it
    sends one request with that prompt as the user message, shows at most one
    error message, and changes neither the heap nor the files.  When a key
    the template reads is missing, the exception of the lookup comes out of
    the function before any request is sent.  The seasonal function reads the
    clock first, and its prompt names the month of that reading. *)
Theorem generate_for_sends_category_prompt
    (c : category) (l : loc) (d : pydict) (previous : pyval) (w : world) :
  heap w !! l = Some d ->
  let now := clock E (clock_reads w) in
  let w0 := match c with Seasonal => after_clock_read w | _ => w end in
  match category_prompt c now d previous with
  | Ok prompt =>
      generate_for c l previous w = generate_recommendation prompt w0 /\
      forall r w',
        generate_for c l previous w = (r, w') ->
        heap w' = heap w /\ files w' = files w /\
        api_calls w' = S (api_calls w) /\
        (trace w' = trace w ++ [GroqCreate (chat_request prompt)] \/
         exists msg, r = Ok None /\
                     trace w' = trace w ++ [GroqCreate (chat_request prompt); StError msg])
  | Raise e =>
      generate_for c l previous w = (Raise e, w0)
  end.
Proof.
  intros Hl now w0.
  assert (generate_for c l previous w =
          match category_prompt c now d previous with
          | Ok prompt => generate_recommendation prompt w0
          | Raise e => (Raise e, w0)
          end) as Hrun.
  { subst now w0. destruct c; cbn [generate_for category_prompt];
      [ unfold generate_diet_recommendation
      | unfold generate_care_recommendation
      | unfold generate_emergency_guide
      | unfold generate_training_tips
      | unfold generate_seasonal_care; rewrite run_bind; unfold datetime_now at 1;
        fold (after_clock_read w); cbv beta zeta
      | unfold analyze_previous_report ];
      first [ rewrite (run_bind_ok _ _ _ _ _ (run_deref l d w Hl))
            | rewrite (run_bind_ok _ _ _ _ _ (run_deref l d (after_clock_read w) Hl)) ];
      rewrite run_lift_bind; reflexivity. }
  destruct (category_prompt c now d previous) as [prompt|e]; [|exact Hrun].
  split; [exact Hrun|].
  intros r w' H. rewrite Hrun in H.
  apply generate_recommendation_effects in H as (Hh & Hf & _ & Hc & Ht).
  assert (heap w0 = heap w /\ files w0 = files w /\ api_calls w0 = api_calls w
          /\ trace w0 = trace w) as (Hh0 & Hf0 & Hc0 & Ht0).
  { subst w0. destruct c; repeat split. }
  rewrite Hh0 in Hh. rewrite Hf0 in Hf. rewrite Hc0 in Hc. rewrite Ht0 in Ht.
  auto.
Qed.

Lemma getitem_agree (d d' : pydict) (k : string) :
  dict_get k d = dict_get k d' -> getitem d k = getitem d' k.
Proof. unfold getitem. intros ->. reflexivity. Qed.

Ltac in_keys := cbn [In category_keys previous_keys report_keys]; auto 10.

Ltac same_lookup H d d' k :=
  rewrite (getitem_agree d d' k) by (apply H; in_keys).

(** X6.  A category's prompt depends on the current profile only through
    the keys its template looks up, and the comparison prompt on the uploaded
    record only through its timestamp, weight and health conditions: two
    profiles that agree on those keys give the same prompt (or the same
    exception).  So the pet's name, its favourite foods and the form's
    timestamp reach no prompt, and the allergies reach only the diet prompt. *)
Theorem category_prompt_reads_only_its_keys
    (c : category) (now : datetime) (d d' : pydict) (previous previous' : pyval) :
  agree_on (category_keys c) d d' ->
  (c = Comparison -> records_agree previous previous') ->
  category_prompt c now d previous = category_prompt c now d' previous'.
Proof.
  intros H Hprev. destruct c; cbn [category_prompt].
  - unfold diet_prompt.
    same_lookup H d d' "type". same_lookup H d d' "breed". same_lookup H d d' "age".
    same_lookup H d d' "weight". same_lookup H d d' "health_conditions".
    same_lookup H d d' "allergies". reflexivity.
  - unfold care_prompt.
    same_lookup H d d' "type". same_lookup H d d' "breed". same_lookup H d d' "age".
    same_lookup H d d' "weight". same_lookup H d d' "health_conditions". reflexivity.
  - unfold emergency_prompt.
    same_lookup H d d' "type". same_lookup H d d' "breed". reflexivity.
  - unfold training_prompt.
    same_lookup H d d' "type". same_lookup H d d' "breed". same_lookup H d d' "age".
    reflexivity.
  - unfold seasonal_prompt.
    same_lookup H d d' "type". same_lookup H d d' "breed". reflexivity.
  - specialize (Hprev eq_refl). unfold comparison_prompt.
    same_lookup H d d' "weight". same_lookup H d d' "health_conditions".
    destruct previous as [| | | | |?|dp], previous' as [| | | | |?|dp'];
      cbn [records_agree] in Hprev; try discriminate Hprev;
      try (injection Hprev as ->); try reflexivity.
    cbn [subscript].
    same_lookup Hprev dp dp' "timestamp". same_lookup Hprev dp dp' "weight".
    same_lookup Hprev dp dp' "health_conditions". reflexivity.
Qed.

(** Looking a key up, when [has_key] has the answer. *)
Lemma has_key_true (d : pydict) (k : string) :
  has_key d k = true -> exists v, dict_get k d = Some v.
Proof. unfold has_key. destruct (dict_get k d); [eauto | discriminate]. Qed.

Lemma has_key_false (d : pydict) (k : string) :
  has_key d k = false -> dict_get k d = None.
Proof. unfold has_key. destruct (dict_get k d); [discriminate | reflexivity]. Qed.

(** Takes the next lookup of a prompt builder: when the key is there the
    builder goes on with its value, when it is missing the builder has raised
    [KeyError] and the goal is left to [finish]. *)
Ltac next_lookup d finish :=
  rewrite bind_getitem;
  let Hk := fresh "Hk" in
  match goal with
  | |- context [ dict_get ?k d ] =>
      destruct (has_key d k) eqn:Hk;
      [ let v := fresh "v" in
        destruct (has_key_true d k Hk) as [v ->]
      | rewrite (has_key_false d k Hk); finish ]
  end.

Ltac missing_input :=
  split; [ unfold prompt_inputs_present, is_dict_with, has_keys;
           cbn [category_keys previous_keys forallb];
           repeat match goal with H : has_key _ _ = _ |- _ => rewrite H end;
           cbn [andb]; rewrite ?andb_false_r; reflexivity
         | left; reflexivity ].

Ltac all_inputs :=
  unfold prompt_inputs_present, is_dict_with, has_keys;
  cbn [category_keys previous_keys forallb];
  repeat match goal with H : has_key _ _ = _ |- _ => rewrite H end;
  reflexivity.

(** The two ways a prompt builder ends. *)
Lemma category_prompt_cases
    (c : category) (now : datetime) (d : pydict) (previous : pyval) :
  match category_prompt c now d previous with
  | Ok _ => prompt_inputs_present c d previous = true
  | Raise e =>
      prompt_inputs_present c d previous = false /\
      (exn_cls e = KeyError \/ exn_cls e = TypeError)
  end.
Proof.
  destruct c; cbn [category_prompt].
  - unfold diet_prompt.
    do 6 (next_lookup d missing_input). all_inputs.
  - unfold care_prompt.
    do 5 (next_lookup d missing_input). all_inputs.
  - unfold emergency_prompt.
    do 2 (next_lookup d missing_input). all_inputs.
  - unfold training_prompt.
    do 3 (next_lookup d missing_input). all_inputs.
  - unfold seasonal_prompt.
    do 2 (next_lookup d missing_input). all_inputs.
  - unfold comparison_prompt.
    destruct previous as [| | | | |?|dp]; cbn [subscript];
      try (split; [unfold prompt_inputs_present, is_dict_with; apply andb_false_r
                  | right; reflexivity]).
    do 3 (next_lookup dp missing_input).
    do 2 (next_lookup d missing_input). all_inputs.
Qed.

(** X7.  A prompt is built exactly when every key its template looks up is
    there: the keys of [category_keys] in the current profile and, for the
    comparison, an uploaded record that is a dict with a timestamp, a weight
    and health conditions.  Otherwise the builder raises [KeyError], or
    [TypeError] for an upload that is no dict. *)
Theorem category_prompt_built_iff_inputs_present
    (c : category) (now : datetime) (d : pydict) (previous : pyval) :
  ((exists prompt, category_prompt c now d previous = Ok prompt) <->
   prompt_inputs_present c d previous = true) /\
  (forall e, category_prompt c now d previous = Raise e ->
             exn_cls e = KeyError \/ exn_cls e = TypeError).
Proof.
  pose proof (category_prompt_cases c now d previous) as Hcases.
  destruct (category_prompt c now d previous) as [prompt|e0].
  - split; [|discriminate]. split; [intros _; exact Hcases | eauto].
  - destruct Hcases as [Hmissing Hclass]. split.
    + split; [intros [prompt H]; discriminate | congruence].
    + intros e H. injection H as <-. exact Hclass.
Qed.

(** X8.  The analysis panel and odd uploads.  An upload that is falsy (null,
    an empty object or list, zero, false, empty text) counts as no upload:
    the panel does nothing, pressed or not.  An upload that is truthy but
    lacks what the comparison template reads makes the pressed panel raise
    [KeyError] or [TypeError] right after the spinner: the exception is
    raised while the prompt is built, outside the client's [try], and no
    request is sent. *)
Theorem analysis_tab_on_odd_uploads
    (clicked : bool) (l : loc) (d : pydict) (previous : pyval) (w : world) :
  heap w !! l = Some d ->
  (truthy previous = false -> analysis_tab clicked l previous w = (Ok tt, w)) /\
  (truthy previous = true ->
   prompt_inputs_present Comparison d previous = false ->
   exists e,
     analysis_tab true l previous w =
       (Raise e, log_event (StSpinner "Analyzing changes from previous report...") w) /\
     (exn_cls e = KeyError \/ exn_cls e = TypeError)).
Proof.
  intros Hl. split.
  - intros Hfalsy. unfold analysis_tab. rewrite Hfalsy. reflexivity.
  - intros Htruthy Hmissing. unfold analysis_tab. rewrite Htruthy. cbn [andb].
    rewrite run_bind. unfold st_spinner at 1, emit at 1.
    set (w0 := log_event (StSpinner "Analyzing changes from previous report...") w).
    pose proof (category_prompt_cases Comparison (clock E 0) d previous) as Hcases.
    cbn [category_prompt] in Hcases.
    rewrite run_bind. unfold analyze_previous_report.
    rewrite (run_bind_ok _ _ _ _ _ (run_deref l d w0 Hl)).
    rewrite run_lift_bind.
    destruct (comparison_prompt d previous) as [prompt|e]; [congruence|].
    exists e. split; [reflexivity | apply Hcases].
Qed.

Lemma outcome_bind_ext {A B : Type} (m : outcome A) (f g : A -> outcome B) :
  (forall a, f a = g a) -> (m ≫= f) = (m ≫= g).
Proof. intros H. destruct m as [a|e]; [apply H | reflexivity]. Qed.

Lemma py_or_falsy (v fallback : pyval) : truthy v = false -> py_or v fallback = fallback.
Proof. unfold py_or. intros ->. reflexivity. Qed.

(** X9.  In the comparison prompt the health conditions of the uploaded
    record go through [or 'None'] on whatever JSON value they are: a value
    that is falsy (null, false, zero, empty text, an empty list or object)
    gives the very prompt that the text [None] in its place gives. *)
Theorem comparison_reads_falsy_health_as_None
    (d dp : pydict) (health : pyval) :
  dict_get "health_conditions" dp = Some health ->
  truthy health = false ->
  comparison_prompt d (VDict dp) =
  comparison_prompt d (VDict (dict_set "health_conditions" (VStr "None") dp)).
Proof.
  intros Hget Hfalsy. unfold comparison_prompt. cbn [subscript].
  set (dp' := dict_set "health_conditions" (VStr "None") dp).
  rewrite (getitem_agree dp' dp "timestamp")
    by (apply dict_get_set_ne; discriminate).
  rewrite (getitem_agree dp' dp "weight")
    by (apply dict_get_set_ne; discriminate).
  apply outcome_bind_ext. intros prev_timestamp.
  apply outcome_bind_ext. intros prev_weight.
  assert (getitem dp' "health_conditions" = Ok (VStr "None")) as ->.
  { unfold getitem, dp'. rewrite dict_get_set_eq. reflexivity. }
  assert (getitem dp "health_conditions" = Ok health) as ->.
  { unfold getitem. rewrite Hget. reflexivity. }
  match goal with
  | |- (Ok ?a ≫= ?f) = (Ok ?b ≫= ?g) => change (f a = g b)
  end.
  cbv beta.
  apply outcome_bind_ext. intros cur_weight.
  apply outcome_bind_ext. intros cur_health.
  rewrite (py_or_falsy health) by exact Hfalsy.
  reflexivity.
Qed.

(** The client lets an exception out only when the API client raised it and
    it is no instance of [Exception]. *)
Lemma generate_recommendation_raises
    (prompt : string) (w w' : world) (e : exn) :
  generate_recommendation prompt w = (Raise e, w') ->
  groq_create E (api_calls w) (chat_request prompt) = Raise e /\
  isinstance_Exception e = false.
Proof.
  rewrite generate_recommendation_run.
  destruct (groq_create E (api_calls w) (chat_request prompt)) as [c|e0].
  - destruct (choices c); discriminate.
  - destruct (isinstance_Exception e0) eqn:Hclass; [discriminate|].
    intros H. injection H as <- _. auto.
Qed.

(** X10.  The Care Guide action sends its two requests one after the other,
    the diet request first, and sends the care request whatever the diet call
    gave: a diet call that failed (and showed its error) does not stop the
    care call, although nothing will be displayed. *)
Theorem care_tab_sends_both_requests
    (l : loc) (d : pydict) (diet_request care_request : string)
    (w w' : world) (r : outcome unit) :
  heap w !! l = Some d ->
  diet_prompt d = Ok diet_request ->
  care_prompt d = Ok care_request ->
  (forall e, groq_create E (api_calls w) (chat_request diet_request) = Raise e ->
             isinstance_Exception e = true) ->
  care_tab true l w = (r, w') ->
  exists errors rest,
    trace w' = trace w ++
      [ StSpinner "Generating comprehensive care guide...";
        GroqCreate (chat_request diet_request) ] ++ errors ++
      [ GroqCreate (chat_request care_request) ] ++ rest /\
    (errors = [] \/ exists msg, errors = [StError msg]).
Proof.
  intros Hl Hdp Hcp Hexc. unfold care_tab.
  rewrite run_bind. unfold st_spinner at 1, emit at 1.
  set (w0 := log_event (StSpinner "Generating comprehensive care guide...") w).
  rewrite run_bind, (generate_diet_recommendation_run l d diet_request w0 Hl Hdp).
  destruct (generate_recommendation diet_request w0) as [[diet_rec|e] w1] eqn:Hdiet.
  2:{ apply generate_recommendation_raises in Hdiet as [Hraised Hclass].
      rewrite (Hexc e Hraised) in Hclass. discriminate. }
  apply generate_recommendation_effects in Hdiet as (Hheap1 & _ & _ & _ & Htrace1).
  assert (exists errors, trace w1 = trace w ++
            [ StSpinner "Generating comprehensive care guide...";
              GroqCreate (chat_request diet_request) ] ++ errors /\
            (errors = [] \/ exists msg, errors = [StError msg]))
    as (errors & Htrace1' & Herrors).
  { destruct Htrace1 as [Ht | (msg & _ & Ht)]; rewrite Ht; unfold w0;
      cbn [trace log_event]; rewrite <- !app_assoc.
    - exists []. split; [reflexivity | auto].
    - exists [StError msg]. split; [reflexivity | eauto]. }
  rewrite run_bind.
  rewrite (generate_care_recommendation_run l d care_request w1)
    by (rewrite ?Hheap1; assumption).
  destruct (generate_recommendation care_request w1) as [[care_rec|e] w2] eqn:Hcare.
  2:{ intros H. injection H as _ <-.
      apply generate_recommendation_effects in Hcare as (_ & _ & _ & _ & Htrace2).
      exists errors. destruct Htrace2 as [Ht | (msg & Hnone & _)]; [|discriminate].
      exists []. rewrite Ht, Htrace1', <- !app_assoc. split; [reflexivity | exact Herrors]. }
  apply generate_recommendation_effects in Hcare as (_ & _ & _ & _ & Htrace2).
  assert (exists shown, trace w2 = trace w1 ++ GroqCreate (chat_request care_request) :: shown)
    as [shown Htrace2'].
  { destruct Htrace2 as [Ht | (msg & _ & Ht)]; rewrite Ht; eauto. }
  match goal with
  | |- ?k w2 = _ -> _ => assert (keeps extends k) as Htail
  end.
  { destruct diet_rec as [diet|], care_rec as [care|];
      try (apply keeps_ret, extends_refl).
    destruct (truthy (VStr diet) && truthy (VStr care)); [|apply keeps_ret, extends_refl].
    unfold st_header, st_markdown.
    repeat first
      [ apply extends_emit
      | apply extends_create_pdf
      | apply extends_save_pet_data
      | apply keeps_bind; [exact extends_trans | | intros ?] ]. }
  intros Hrun. destruct (Htail _ _ _ Hrun) as [more Hmore].
  exists errors, (shown ++ more). split; [|exact Herrors].
  rewrite Hmore, Htrace2', Htrace1'. cbn [app]. rewrite <- !app_assoc. reflexivity.
Qed.

(** On a log file that is no JSON, [save_pet_data] stops at [json.load]. *)
Lemma save_pet_data_on_text (l : loc) (w : world) (text : string) :
  files w !! "pet_data.json" = Some (NotJson text) ->
  save_pet_data l w =
    (Raise (Exn JSONDecodeError "Expecting value: line 1 column 1 (char 0)"), w).
Proof.
  intros Hfile. unfold save_pet_data.
  rewrite run_bind. unfold os_path_exists at 1.
  rewrite bool_decide_eq_true_2 by (rewrite Hfile; eauto).
  rewrite run_bind. unfold open_json_load. rewrite Hfile. reflexivity.
Qed.

(** X11.  How [save_pet_data] fails.  On a log file that is no JSON it
    raises [JSONDecodeError] before anything else happens: the caller's
    dictionary is not stamped and the file is as it was.  On a log file that
    holds JSON other than a list it raises [AttributeError] at [append]: by
    then the caller's dictionary has been stamped, while the file is still as
    it was and nothing has been written. *)
Theorem save_pet_data_failure_modes (l : loc) (d : pydict) (w : world) :
  heap w !! l = Some d ->
  (forall text,
     files w !! "pet_data.json" = Some (NotJson text) ->
     exists e, save_pet_data l w = (Raise e, w) /\ exn_cls e = JSONDecodeError) /\
  (forall doc,
     files w !! "pet_data.json" = Some (Document doc) ->
     (forall records, doc <> VList records) ->
     exists e w',
       save_pet_data l w = (Raise e, w') /\
       exn_cls e = AttributeError /\
       heap w' = <[l := dict_set "timestamp" (VStr (stamp w)) d]> (heap w) /\
       files w' = files w /\
       trace w' = trace w).
Proof.
  intros Hl. split.
  - intros text Hfile. rewrite (save_pet_data_on_text l w text Hfile).
    eexists. split; reflexivity.
  - intros doc Hfile Hnolist. unfold save_pet_data.
    rewrite run_bind. unfold os_path_exists at 1.
    rewrite bool_decide_eq_true_2 by (rewrite Hfile; eauto).
    rewrite run_bind. unfold open_json_load at 1. rewrite Hfile. cbn [json_load].
    rewrite run_bind. unfold datetime_now at 1. fold (stamp w) (after_clock_read w).
    assert (setitem l "timestamp" (VStr (stamp w)) (after_clock_read w)
            = (Ok tt, set_heap (<[l := dict_set "timestamp" (VStr (stamp w)) d]> (heap w))
                               (after_clock_read w))) as Hset.
    { unfold setitem.
      rewrite (run_bind_ok _ _ _ _ _ (run_deref l d (after_clock_read w) Hl)). reflexivity. }
    rewrite (run_bind_ok _ _ _ _ _ Hset).
    rewrite run_lift_bind.
    destruct doc as [| | | | |records|]; try (eexists _, _; repeat split; reflexivity).
    destruct (Hnolist records eq_refl).
Qed.

(** *** Renders that only display *)

Lemma idle_refl (w : world) : idle w w.
Proof.
  repeat split. exists []. rewrite app_nil_r. split; [reflexivity | constructor].
Qed.

Lemma idle_trans (w1 w2 w3 : world) : idle w1 w2 -> idle w2 w3 -> idle w1 w3.
Proof.
  intros (Hf1 & Hc1 & Hh1 & evs1 & Ht1 & Hd1) (Hf2 & Hc2 & Hh2 & evs2 & Ht2 & Hd2).
  split; [congruence|]. split; [congruence|]. split.
  - intros l Hl. rewrite Hh2, Hh1; [reflexivity | exact Hl |].
    rewrite Hh1; exact Hl.
  - exists (evs1 ++ evs2). rewrite Ht2, Ht1, app_assoc.
    split; [reflexivity | apply Forall_app; split; assumption].
Qed.

Lemma idle_emit (ev : event) : is_display ev = true -> keeps idle (emit ev).
Proof.
  intros Hev w r w' H. injection H as _ <-. repeat split.
  exists [ev]. split; [reflexivity | repeat constructor; exact Hev].
Qed.

Lemma idle_datetime_now : keeps idle datetime_now.
Proof.
  intros w r w' H. injection H as _ <-. repeat split.
  exists []. cbn [trace]. rewrite app_nil_r. split; [reflexivity | constructor].
Qed.

(** A new object leaves the objects that were there alone. *)
Lemma idle_new_dict (d : pydict) : keeps idle (new_dict d).
Proof.
  intros w r w' H. injection H as _ <-. split; [reflexivity|]. split; [reflexivity|]. split.
  - intros l Hl. cbn [heap set_heap]. apply lookup_insert_ne.
    intros <-. apply elem_of_dom in Hl. exact (is_fresh _ Hl).
  - exists []. cbn [trace set_heap]. rewrite app_nil_r. split; [reflexivity | constructor].
Qed.

Lemma idle_show_records : keeps idle show_records.
Proof.
  unfold show_records.
  apply keeps_bind; [exact idle_trans | apply keeps_os_path_exists, idle_refl | intros found].
  destruct found; [|apply keeps_ret, idle_refl].
  apply keeps_bind; [exact idle_trans | apply keeps_open_json_load, idle_refl | intros records].
  destruct (truthy records); [|apply keeps_ret, idle_refl].
  apply keeps_bind; [exact idle_trans | apply keeps_lift, idle_refl | intros frame].
  apply idle_emit. reflexivity.
Qed.

(** X12.  A run of the script with no button pressed only displays: it sends
    no request, builds no document, offers no download and writes no file,
    whatever was uploaded and whatever the log file holds, and whether the
    run ends or raises (on an upload or a log file that is no JSON, or on a
    log that pandas makes no frame of).  The
    profile dictionary it builds is a new object. *)
Theorem main_without_buttons_only_displays
    (ui : widgets) (w w' : world) (r : outcome unit) :
  care_button ui = false ->
  emergency_button ui = false ->
  training_button ui = false ->
  seasonal_button ui = false ->
  save_button ui = false ->
  analysis_button ui = false ->
  main ui w = (r, w') ->
  idle w w'.
Proof.
  intros Hcare Hemergency Htraining Hseasonal Hsave Hanalysis.
  revert w r w'. change (keeps idle (main ui)).
  unfold main. rewrite Hcare, Hemergency, Htraining, Hseasonal, Hsave, Hanalysis.
  unfold st_title, st_header, st_success.
  apply keeps_bind; [exact idle_trans | apply idle_emit; reflexivity | intros _].
  apply keeps_bind; [exact idle_trans | | intros previous].
  { destruct (uploaded_file ui) as [f|]; [|apply keeps_ret, idle_refl].
    apply keeps_bind; [exact idle_trans | apply keeps_lift, idle_refl | intros v].
    apply keeps_bind; [exact idle_trans | apply idle_emit; reflexivity | intros _].
    apply keeps_ret, idle_refl. }
  apply keeps_bind; [exact idle_trans | apply idle_emit; reflexivity | intros _].
  apply keeps_bind; [exact idle_trans | apply idle_emit; reflexivity | intros _].
  apply keeps_bind; [exact idle_trans | apply idle_datetime_now | intros now].
  apply keeps_bind; [exact idle_trans | apply idle_new_dict | intros pet_info].
  apply keeps_bind; [exact idle_trans | apply keeps_ret, idle_refl | intros _].
  apply keeps_bind; [exact idle_trans | apply keeps_ret, idle_refl | intros _].
  apply keeps_bind; [exact idle_trans | apply keeps_ret, idle_refl | intros _].
  apply keeps_bind; [exact idle_trans | apply keeps_ret, idle_refl | intros _].
  apply keeps_bind; [exact idle_trans | | intros _].
  { unfold records_tab, st_header.
    apply keeps_bind; [exact idle_trans | apply idle_emit; reflexivity | intros _].
    apply keeps_bind; [exact idle_trans | apply keeps_ret, idle_refl | intros _].
    apply idle_show_records. }
  unfold analysis_tab. rewrite andb_false_r. apply keeps_ret, idle_refl.
Qed.

(** *** The report's inputs *)

Lemma pet_info_text_cases (d : pydict) :
  if has_keys ["type"; "breed"; "age"; "weight"; "health_conditions"; "allergies"] d
  then exists summary, pet_info_text d = Ok summary
  else exists e, pet_info_text d = Raise e /\ exn_cls e = KeyError.
Proof.
  unfold pet_info_text, has_keys. cbn [forallb].
  do 6 (next_lookup d ltac:(cbn [andb]; rewrite ?andb_false_r; eexists; split; reflexivity)).
  cbn [andb]. eexists. reflexivity.
Qed.

Lemma length_sections (recommendations : list (string * string)) :
  length (section_flowables recommendations) = 3 * length recommendations.
Proof.
  unfold section_flowables.
  induction recommendations as [|entry rest IH]; [reflexivity|].
  cbn [flat_map app length]. rewrite IH. lia.
Qed.

(** X13.  [create_pdf] reads seven keys of the profile: name, type, breed,
    age, weight, health_conditions and allergies (not the favourite foods,
    not the timestamp).  With all seven it puts together a story of seven
    fixed flowables and three per section, and builds it when reportlab takes
    every paragraph; when reportlab refuses one, it raises [ValueError] and
    builds nothing.  With a key missing it raises before it reads the clock
    or builds anything: [KeyError], unless the name is there and reportlab
    refuses the title or the first heading, which come before the other
    lookups ([ValueError]). *)
Theorem create_pdf_needs_its_keys
    (l : loc) (d : pydict) (recommendations : list (string * string)) (w : world) :
  heap w !! l = Some d ->
  if has_keys report_keys d
  then exists story,
         length story = 7 + 3 * length recommendations /\
         if story_accepted story
         then create_pdf l recommendations w =
                (Ok (doc_build E story), log_event (DocBuild story) (after_clock_read w))
         else exists e w',
                create_pdf l recommendations w = (Raise e, w') /\
                exn_cls e = ValueError /\ trace w' = trace w
  else exists e,
         create_pdf l recommendations w = (Raise e, w) /\
         match dict_get "name" d with
         | None => exn_cls e = KeyError
         | Some name =>
             if well_formed ("Pet Care Report for " +:+ py_str name)
                && well_formed "Pet Information"
             then exn_cls e = KeyError
             else exn_cls e = ValueError
         end.
Proof.
  intros Hl. pose proof (pet_info_text_cases d) as Htext.
  unfold report_keys, has_keys in *. cbn [forallb] in *.
  destruct (has_key d "name") eqn:Hname; cbn [andb].
  - destruct (has_key_true d "name" Hname) as [name Hget].
    assert (getitem d "name" = Ok name) as Hitem
      by (unfold getitem; rewrite Hget; reflexivity).
    match type of Htext with
    | if ?b then _ else _ => destruct b
    end.
    + destruct Htext as [summary Hsummary].
      exists (report_story name summary recommendations (stamp w)). split.
      { unfold report_story. rewrite !length_app, length_sections. cbn [length]. lia. }
      destruct (create_pdf_cases l d recommendations w name summary Hl Hitem Hsummary)
        as [[-> Hrun] | [-> (msg & w' & Hrun & Hw)]]; [exact Hrun|].
      exists (Exn ValueError msg), w'. split; [exact Hrun|]. split; [reflexivity|].
      destruct Hw as [-> | ->]; reflexivity.
    + destruct Htext as (e & Hraise & Hclass).
      rewrite Hget. unfold create_pdf.
      rewrite (run_bind_ok _ _ _ _ _ (run_deref l d w Hl)).
      rewrite run_lift_bind, Hitem. cbv beta iota zeta.
      unfold fstring. cbn [fold_right render py_str]. rewrite !string_app_nil_r.
      rewrite run_lift_bind.
      destruct (well_formed ("Pet Care Report for " +:+ py_str name)) eqn:Htitle;
        [rewrite (Paragraph_init_accepted _ title_style Htitle)
        |destruct (Paragraph_init_refused _ title_style Htitle) as [msg ->];
         eexists; split; reflexivity].
      cbv beta iota zeta. rewrite run_lift_bind.
      destruct (well_formed "Pet Information") eqn:Hheading;
        [rewrite (Paragraph_init_accepted _ Heading2 Hheading)
        |destruct (Paragraph_init_refused _ Heading2 Hheading) as [msg ->];
         eexists; split; reflexivity].
      cbv beta iota zeta. rewrite run_lift_bind, Hraise.
      exists e. split; [reflexivity | exact Hclass].
  - rewrite (has_key_false d "name" Hname). eexists. split.
    + unfold create_pdf.
      rewrite (run_bind_ok _ _ _ _ _ (run_deref l d w Hl)).
      rewrite run_lift_bind. unfold getitem at 1.
      rewrite (has_key_false d "name" Hname). reflexivity.
    + reflexivity.
Qed.

(** X14.  The Care Guide action saves last.  When both calls came back with
    text and reportlab takes every paragraph of the report, but the log file
    is no JSON, the panel has already shown both texts, built the report and
    offered the download when [save_pet_data] raises [JSONDecodeError]; the
    exception ends the run, and neither the file nor the profile's dictionary
    has changed. *)
Theorem care_tab_raises_after_display_on_bad_log
    (p : PetProfile) (l : loc) (w w1 w2 : world) (text diet care summary : string) :
  heap w !! l = Some (pet_info_dict p) ->
  files w !! "pet_data.json" = Some (NotJson text) ->
  generate_diet_recommendation l
    (log_event (StSpinner "Generating comprehensive care guide...") w) = (Ok (Some diet), w1) ->
  generate_care_recommendation l w1 = (Ok (Some care), w2) ->
  diet <> "" ->
  care <> "" ->
  pet_info_text (pet_info_dict p) = Ok summary ->
  let story :=
    report_story (VStr (name p)) summary
      [("Diet Recommendations", diet); ("Care Recommendations", care)] (stamp w2) in
  story_accepted story = true ->
  exists e w3,
    care_tab true l w = (Raise e, w3) /\
    exn_cls e = JSONDecodeError /\
    trace w3 = trace w2 ++
      [ StHeader "🍽️ Diet Recommendations";
        StMarkdown diet false;
        StHeader "💝 Care Recommendations";
        StMarkdown care false;
        DocBuild story;
        StMarkdown (get_download_link (doc_build E story)) true ] /\
    files w3 = files w /\
    heap w3 = heap w.
Proof.
  intros Hl Hfile Hdiet Hcare Hd Hc Hsummary story Haccepted.
  assert (quiet w w2) as (Hheap & Hfiles & _).
  { eapply quiet_trans;
      [apply (quiet_log_event (StSpinner "Generating comprehensive care guide...") w);
       reflexivity |].
    eapply quiet_trans.
    - eapply quiet_generate_diet_recommendation, Hdiet.
    - eapply quiet_generate_care_recommendation, Hcare. }
  unfold care_tab.
  rewrite run_bind. unfold st_spinner at 1, emit at 1.
  rewrite (run_bind_ok _ _ _ _ _ Hdiet), (run_bind_ok _ _ _ _ _ Hcare).
  rewrite (truthy_text _ Hd), (truthy_text _ Hc). cbn [andb].
  rewrite run_bind. unfold st_header at 1, emit at 1.
  rewrite run_bind. unfold st_markdown at 1, emit at 1.
  rewrite run_bind. unfold st_header at 1, emit at 1.
  rewrite run_bind. unfold st_markdown at 1, emit at 1.
  match goal with
  | |- context [ (create_pdf l ?recs ≫= _) ?w0 ] => set (shown := w0)
  end.
  assert (heap shown !! l = Some (pet_info_dict p)) as Hl'.
  { unfold shown. cbn [heap log_event]. rewrite Hheap. exact Hl. }
  pose proof (create_pdf_run l _
                [("Diet Recommendations", diet); ("Care Recommendations", care)]
                shown (VStr (name p)) summary Hl' eq_refl Hsummary Haccepted) as Hpdf.
  rewrite (run_bind_ok _ _ _ _ _ Hpdf).
  rewrite run_bind. unfold st_markdown at 1, emit at 1.
  match goal with
  | |- context [ save_pet_data l ?w0 ] => set (offered := w0)
  end.
  assert (files offered !! "pet_data.json" = Some (NotJson text)) as Hfile'.
  { unfold offered, shown. cbn [files log_event after_clock_read].
    rewrite Hfiles. exact Hfile. }
  rewrite (save_pet_data_on_text l offered text Hfile').
  eexists _, _. split; [reflexivity|]. split; [reflexivity|].
  unfold offered, shown. cbn [trace files heap log_event after_clock_read].
  rewrite <- !app_assoc. auto.
Qed.

(** X15.  The report is built after the texts are shown.  When both calls
    came back with text but reportlab refuses a paragraph of the report (a
    text with an unclosed tag, say), the panel has already shown both texts
    when [create_pdf] raises [ValueError]; the exception ends the run with
    no report built, no download offered and nothing saved: the file and the
    profile's dictionary are as they were. *)
Theorem care_tab_raises_after_display_on_refused_markup
    (p : PetProfile) (l : loc) (w w1 w2 : world) (diet care summary : string) :
  heap w !! l = Some (pet_info_dict p) ->
  generate_diet_recommendation l
    (log_event (StSpinner "Generating comprehensive care guide...") w) = (Ok (Some diet), w1) ->
  generate_care_recommendation l w1 = (Ok (Some care), w2) ->
  diet <> "" ->
  care <> "" ->
  pet_info_text (pet_info_dict p) = Ok summary ->
  let story :=
    report_story (VStr (name p)) summary
      [("Diet Recommendations", diet); ("Care Recommendations", care)] (stamp w2) in
  story_accepted story = false ->
  exists e w3,
    care_tab true l w = (Raise e, w3) /\
    exn_cls e = ValueError /\
    trace w3 = trace w2 ++
      [ StHeader "🍽️ Diet Recommendations";
        StMarkdown diet false;
        StHeader "💝 Care Recommendations";
        StMarkdown care false ] /\
    files w3 = files w /\
    heap w3 = heap w.
Proof.
  intros Hl Hdiet Hcare Hd Hc Hsummary story Hrefused.
  assert (quiet w w2) as (Hheap & Hfiles & _).
  { eapply quiet_trans;
      [apply (quiet_log_event (StSpinner "Generating comprehensive care guide...") w);
       reflexivity |].
    eapply quiet_trans.
    - eapply quiet_generate_diet_recommendation, Hdiet.
    - eapply quiet_generate_care_recommendation, Hcare. }
  unfold care_tab.
  rewrite run_bind. unfold st_spinner at 1, emit at 1.
  rewrite (run_bind_ok _ _ _ _ _ Hdiet), (run_bind_ok _ _ _ _ _ Hcare).
  rewrite (truthy_text _ Hd), (truthy_text _ Hc). cbn [andb].
  rewrite run_bind. unfold st_header at 1, emit at 1.
  rewrite run_bind. unfold st_markdown at 1, emit at 1.
  rewrite run_bind. unfold st_header at 1, emit at 1.
  rewrite run_bind. unfold st_markdown at 1, emit at 1.
  match goal with
  | |- context [ (create_pdf l ?recs ≫= _) ?w0 ] => set (shown := w0)
  end.
  assert (heap shown !! l = Some (pet_info_dict p)) as Hl'.
  { unfold shown. cbn [heap log_event]. rewrite Hheap. exact Hl. }
  destruct (create_pdf_cases l _
              [("Diet Recommendations", diet); ("Care Recommendations", care)]
              shown (VStr (name p)) summary Hl' eq_refl Hsummary)
    as [[Hacc _] | [_ (msg & w3 & Hpdf & Hw3)]].
  { change (stamp shown) with (stamp w2) in Hacc. fold story in Hacc. congruence. }
  rewrite run_bind, Hpdf.
  exists (Exn ValueError msg), w3. split; [reflexivity|]. split; [reflexivity|].
  destruct Hw3 as [-> | ->]; unfold shown;
    cbn [trace files heap log_event after_clock_read];
    rewrite <- !app_assoc; auto.
Qed.

End Program.

(** ** The theorems at sample inputs *)

(** The rate limit is hit: the client shows the error and returns [None]. *)
Lemma generate_recommendation_catches_failure_witness :
  isinstance_Exception (Exn RateLimitError "Rate limit reached") = true /\
  generate_recommendation (sample_env api_down) "How much should Rex eat?" rex_world =
    (Ok None,
     log_event (StError "Error generating recommendation: Rate limit reached")
               (after_request "How much should Rex eat?" rex_world)).
Proof.
  split; [reflexivity|].
  apply (generate_recommendation_catches_failure (sample_env api_down)
           "How much should Rex eat?" rex_world (Exn RateLimitError "Rate limit reached")).
  - apply failure_raised.
  - reflexivity.
Defined.

(** Rex has no health conditions: the report built for him has the summary
    paragraph, which reads [Health Conditions: None]. *)
Lemma empty_fields_render_as_None_witness :
  let E := sample_env api_up in
  exists summary story,
    pet_info_text E (pet_info_dict rex) = Ok summary /\
    create_pdf E rex_loc [] rex_world =
      (Ok (doc_build E story), log_event (DocBuild story) (after_clock_read rex_world)) /\
    In (Paragraph summary Normal) story /\
    occurs_in ("Health Conditions: None" +:+ nl) summary.
Proof.
  intros E.
  destruct (empty_fields_render_as_None E rex)
    as (prompt & summary & _ & Hsummary & Hreport & Hhealth & _).
  destruct (create_pdf E rex_loc [] rex_world) as [[buffer|e] w'] eqn:Hrun;
    [|vm_compute in Hrun; discriminate Hrun].
  destruct (Hreport rex_loc [] rex_world buffer w' eq_refl Hrun)
    as (story & -> & -> & Hin).
  exists summary, story.
  split; [exact Hsummary|]. split; [reflexivity|]. split; [exact Hin|].
  apply (Hhealth eq_refl).
Defined.

(** The API answers: the client returns the answer's text. *)
Lemma first_completion_is_returned_and_displayed_witness :
  generate_recommendation (sample_env api_up) "How much should Rex eat?" rex_world =
    (Ok (Some "Feed 300 g twice a day."),
     after_request "How much should Rex eat?" rex_world).
Proof.
  apply (proj1 (first_completion_is_returned_and_displayed (sample_env api_up))
           "How much should Rex eat?" rex_world (reply "Feed 300 g twice a day.")
           (Choice (CompletionMessage (Some "Feed 300 g twice a day."))) []).
  - reflexivity.
  - reflexivity.
Defined.

(** The diet call answers and the care call hits the rate limit: the panel
    stops after the two calls. *)
Lemma care_tab_failure_skips_export_and_save_witness :
  let E := sample_env api_flaky in
  let w0 := log_event (StSpinner "Generating comprehensive care guide...") rex_world in
  let w1 := snd (generate_diet_recommendation E rex_loc w0) in
  let w2 := snd (generate_care_recommendation E rex_loc w1) in
  care_tab E true rex_loc rex_world = (Ok tt, w2) /\
  files w2 = files rex_world /\
  heap w2 = heap rex_world /\
  exists evs, trace w2 = trace rex_world ++ evs /\
              Forall (fun ev => exports_or_writes ev = false) evs.
Proof.
  intros E w0 w1 w2.
  apply (proj1 (care_tab_failure_skips_export_and_save E)
           rex_loc rex_world w1 w2 (Some "Feed 300 g twice a day.") None).
  - vm_compute. reflexivity.
  - vm_compute. reflexivity.
  - right. reflexivity.
Defined.

(** Rex is saved to a store with no log file; the log is then a list of one
    record, which the records panel shows. *)
Lemma save_then_load_round_trip_witness :
  let E := sample_env api_up in
  exists w' records,
    save_pet_data E rex_loc rex_world = (Ok tt, w') /\
    open_json_load "pet_data.json" w' = (Ok (VList records), w') /\
    show_records E w' = (Ok tt, log_event (StDataframe (VList records)) w') /\
    records <> [] /\
    last records = Some (VDict (pet_info_dict (with_timestamp (stamp E rex_world) rex))).
Proof.
  intros E.
  destruct (save_then_load_round_trip E rex rex_loc rex_world [] eq_refl eq_refl)
    as (w' & records & Hsave & Hload & Hshow & Hne & Hlast).
  exists w', records.
  split; [exact Hsave|]. split; [exact Hload|]. split; [|split; assumption].
  rewrite Hshow.
  assert (w' = snd (save_pet_data E rex_loc rex_world)) as Hw' by (rewrite Hsave; reflexivity).
  assert (VList records =
          match fst (open_json_load "pet_data.json" w') with
          | Ok v => v
          | Raise _ => VNone
          end) as -> by (rewrite Hload; reflexivity).
  rewrite Hw'. reflexivity.
Defined.

Lemma save_pet_data_appends_witness :
  let E := sample_env api_up in
  exists w1 w2 new1 new2,
    save_pet_data E rex_loc rex_world = (Ok tt, w1) /\
    stored_records w1 = Some new1 /\
    length new1 = 1 /\
    take 0 new1 = [] /\
    save_pet_data E rex_loc w1 = (Ok tt, w2) /\
    stored_records w2 = Some new2 /\
    length new2 = 2 /\
    take (length new1) new2 = new1.
Proof.
  apply (save_pet_data_appends (sample_env api_up) rex_loc rex_loc rex_world []).
  - eexists. reflexivity.
  - eexists. reflexivity.
  - reflexivity.
Defined.

Lemma save_pet_data_stamps_in_place_witness :
  let E := sample_env api_up in
  exists w' d' records,
    save_pet_data E rex_loc rex_world = (Ok tt, w') /\
    heap w' !! rex_loc = Some d' /\
    dict_get "timestamp" d' = Some (VStr (stamp E rex_world)) /\
    (forall k, k <> "timestamp" -> dict_get k d' = dict_get k (pet_info_dict rex)) /\
    stored_records w' = Some records /\
    last records = Some (VDict d') /\
    (forall l', l' <> rex_loc -> heap w' !! l' = heap rex_world !! l').
Proof.
  apply (save_pet_data_stamps_in_place (sample_env api_up) rex_loc (pet_info_dict rex)
           rex_world []).
  - reflexivity.
  - reflexivity.
Defined.

(** No log file, and a log file that holds the empty array. *)
Lemma empty_store_loads_as_empty_witness :
  let E := sample_env api_up in
  (show_records E rex_world = (Ok tt, rex_world) /\
   exists w', save_pet_data E rex_loc rex_world = (Ok tt, w') /\
              stored_records w' =
                Some [VDict (dict_set "timestamp" (VStr (stamp E rex_world))
                                      (pet_info_dict rex))]) /\
  (open_json_load "pet_data.json" (rex_world_with_log (VList []))
     = (Ok (VList []), rex_world_with_log (VList [])) /\
   show_records E (rex_world_with_log (VList [])) = (Ok tt, rex_world_with_log (VList []))).
Proof.
  split.
  - apply (proj1 (empty_store_loads_as_empty (sample_env api_up) rex_loc (pet_info_dict rex)
                    rex_world eq_refl)).
    reflexivity.
  - apply (proj2 (empty_store_loads_as_empty (sample_env api_up) rex_loc (pet_info_dict rex)
                    (rex_world_with_log (VList [])) eq_refl)).
    reflexivity.
Defined.

(** C6 as stated fails on a log file of zero bytes: it is no JSON document,
    and loading it raises, in the records panel and in [save_pet_data]
    alike. *)
Lemma empty_file_load_raises :
  let w := rex_world_with_text "" in
  let fault := Exn JSONDecodeError "Expecting value: line 1 column 1 (char 0)" in
  files w !! "pet_data.json" = Some (NotJson "") /\
  open_json_load "pet_data.json" w = (Raise fault, w) /\
  show_records (sample_env api_up) w = (Raise fault, w) /\
  save_pet_data (sample_env api_up) rex_loc w = (Raise fault, w).
Proof. repeat split. Qed.

(** The report for Rex with a diet and a care section. *)
Lemma create_pdf_sections_and_disclaimer_witness :
  let E := sample_env api_up in
  let recommendations :=
    [ ("Diet Recommendations", "Feed 300 g twice a day.");
      ("Care Recommendations", "Walk 45 minutes a day.") ] in
  exists story summary,
    create_pdf E rex_loc recommendations rex_world =
      (Ok (doc_build E story), log_event (DocBuild story) (after_clock_read rex_world)) /\
    headings story = ["Pet Information"; "Diet Recommendations"; "Care Recommendations"] /\
    titled_sections story = ("Pet Information", summary) :: recommendations /\
    last story = Some (Paragraph disclaimer Italic) /\
    contains "This report was generated using artificial intelligence" disclaimer = true /\
    contains "they should not replace professional veterinary advice" disclaimer = true.
Proof.
  intros E recommendations.
  destruct (create_pdf_sections_and_disclaimer E rex rex_loc recommendations rex_world
              eq_refl)
    as (story & summary & Hbuilt & Hrefused & _ & Hrest).
  exists story, summary. split; [|exact Hrest].
  destruct (story_accepted E story); [exact (Hbuilt eq_refl)|].
  destruct (Hrefused eq_refl) as (e & w' & Hraise & _).
  vm_compute in Hraise. discriminate Hraise.
Defined.

(** C9 as stated fails on the emergency prompt: for Rex it names neither
    his allergy, nor his weight, nor his age. *)
Lemma emergency_prompt_omits_fields :
  let E := sample_env api_up in
  exists s,
    category_prompt E Emergency (sample_clock 0) (pet_info_dict rex) VNone = Ok s /\
    ~ occurs_in (allergies rex) s /\
    ~ occurs_in (float_repr E (weight rex)) s /\
    ~ occurs_in (float_repr E (age rex)) s.
Proof.
  eexists. split; [reflexivity|].
  repeat split; apply contains_false; vm_compute; reflexivity.
Qed.

(** The API never raises: the client returns. *)
Lemma generate_recommendation_returns_witness :
  exists r w',
    generate_recommendation (sample_env api_malformed) "How much should Rex eat?" rex_world
      = (Ok r, w').
Proof.
  apply (generate_recommendation_returns (sample_env api_malformed)).
  intros e H. discriminate H.
Defined.

(** Both calls answer for Rex: the texts are shown, the report is built and
    Rex is stored. *)
Lemma care_tab_success_witness :
  let E := sample_env api_up in
  let w0 := log_event (StSpinner "Generating comprehensive care guide...") rex_world in
  let w1 := snd (generate_diet_recommendation E rex_loc w0) in
  let w2 := snd (generate_care_recommendation E rex_loc w1) in
  let saved := pet_info_dict (with_timestamp (stamp E (after_clock_read w2)) rex) in
  exists summary,
    pet_info_text E (pet_info_dict rex) = Ok summary /\
    let story :=
      report_story E (VStr "Rex") summary
        [ ("Diet Recommendations", "Feed 300 g twice a day.");
          ("Care Recommendations", "Walk 45 minutes a day.") ] (stamp E w2) in
    story_accepted E story = true /\
    exists w3,
    care_tab E true rex_loc rex_world = (Ok tt, w3) /\
    trace w3 = trace w2 ++
      [ StHeader "🍽️ Diet Recommendations";
        StMarkdown "Feed 300 g twice a day." false;
        StHeader "💝 Care Recommendations";
        StMarkdown "Walk 45 minutes a day." false;
        DocBuild story;
        StMarkdown (get_download_link E (doc_build E story)) true;
        FileWrite "pet_data.json" (VList ([] ++ [VDict saved])) ] /\
    titled_sections story =
      [ ("Pet Information", summary);
        ("Diet Recommendations", "Feed 300 g twice a day.");
        ("Care Recommendations", "Walk 45 minutes a day.") ] /\
    stored_records w3 = Some ([] ++ [VDict saved]).
Proof.
  intros E w0 w1 w2 saved.
  eexists. split; [reflexivity|].
  intros story. split; [vm_compute; reflexivity|].
  apply (care_tab_success E rex rex_loc rex_world w1 w2 []
           "Feed 300 g twice a day." "Walk 45 minutes a day." _).
  - reflexivity.
  - reflexivity.
  - vm_compute. reflexivity.
  - vm_compute. reflexivity.
  - discriminate.
  - discriminate.
  - reflexivity.
  - vm_compute. reflexivity.
Defined.

(** Rex's form is saved from a fresh start. *)
Lemma main_saves_the_form_witness :
  let E := sample_env api_up in
  let saved :=
    pet_info_dict (Profile "Rex" Dog "Labrador" 3%float 28%float "" "" "Chicken"
                           (stamp E (after_clock_read fresh_world))) in
  exists w',
    stored_records w' = Some ([] ++ [VDict saved]) /\
    main E rex_form fresh_world = (Ok tt, w') /\
    trace w' = trace fresh_world ++
      [ StTitle "🐾 Advanced Pet Care Assistant";
        StHeader "Pet Information";
        StHeader "Food Preferences & Allergies";
        StHeader "📋 Health Records";
        FileWrite "pet_data.json" (VList ([] ++ [VDict saved]));
        StSuccess "Health record saved successfully!" ]
      ++ [ StDataframe (VList ([] ++ [VDict saved])) ].
Proof.
  apply (main_saves_the_form (sample_env api_up) rex_form fresh_world []);
    reflexivity.
Defined.

(** The emergency guide for Rex: one request with the emergency prompt. *)
Lemma generate_for_sends_category_prompt_witness :
  let E := sample_env api_up in
  let now := clock E (clock_reads rex_world) in
  match category_prompt E Emergency now (pet_info_dict rex) VNone with
  | Ok prompt =>
      generate_for E Emergency rex_loc VNone rex_world
        = generate_recommendation E prompt rex_world /\
      forall r w',
        generate_for E Emergency rex_loc VNone rex_world = (r, w') ->
        heap w' = heap rex_world /\ files w' = files rex_world /\
        api_calls w' = S (api_calls rex_world) /\
        (trace w' = trace rex_world ++ [GroqCreate (chat_request prompt)] \/
         exists msg, r = Ok None /\
                     trace w' = trace rex_world ++
                                  [GroqCreate (chat_request prompt); StError msg])
  | Raise e =>
      generate_for E Emergency rex_loc VNone rex_world = (Raise e, rex_world)
  end.
Proof.
  exact (generate_for_sends_category_prompt (sample_env api_up) Emergency rex_loc
           (pet_info_dict rex) VNone rex_world eq_refl).
Defined.

(** Rex under another name, with other favourite foods and another
    timestamp, gets the same diet prompt. *)
Lemma category_prompt_reads_only_its_keys_witness :
  let E := sample_env api_up in
  category_prompt E Diet (sample_clock 0) (pet_info_dict rex) VNone =
  category_prompt E Diet (sample_clock 0) (pet_info_dict rex_renamed) VNone.
Proof.
  apply (category_prompt_reads_only_its_keys (sample_env api_up) Diet (sample_clock 0)
           (pet_info_dict rex) (pet_info_dict rex_renamed) VNone VNone).
  - intros k Hk. cbn [In category_keys] in Hk.
    repeat (destruct Hk as [<- | Hk]; [reflexivity|]). destruct Hk.
  - discriminate.
Defined.

(** An upload with a weight only: the analysis panel raises after the
    spinner. *)
Lemma analysis_tab_on_odd_uploads_witness :
  let E := sample_env api_up in
  let previous := VDict [("weight", VInt 27)] in
  (truthy previous = false ->
   analysis_tab E true rex_loc previous rex_world = (Ok tt, rex_world)) /\
  (truthy previous = true ->
   prompt_inputs_present Comparison (pet_info_dict rex) previous = false ->
   exists e,
     analysis_tab E true rex_loc previous rex_world =
       (Raise e,
        log_event (StSpinner "Analyzing changes from previous report...") rex_world) /\
     (exn_cls e = KeyError \/ exn_cls e = TypeError)).
Proof.
  exact (analysis_tab_on_odd_uploads (sample_env api_up) true rex_loc (pet_info_dict rex)
           (VDict [("weight", VInt 27)]) rex_world eq_refl).
Defined.

(** An uploaded record whose health conditions are null. *)
Lemma comparison_reads_falsy_health_as_None_witness :
  let E := sample_env api_up in
  comparison_prompt E (pet_info_dict rex) (VDict sparse_record) =
  comparison_prompt E (pet_info_dict rex)
    (VDict (dict_set "health_conditions" (VStr "None") sparse_record)).
Proof.
  apply (comparison_reads_falsy_health_as_None (sample_env api_up) (pet_info_dict rex)
           sparse_record VNone).
  - reflexivity.
  - reflexivity.
Defined.

(** Every call hits the rate limit: the care request is sent all the same. *)
Lemma care_tab_sends_both_requests_witness :
  let E := sample_env api_down in
  let run := care_tab E true rex_loc rex_world in
  exists diet_request care_request,
    diet_prompt E (pet_info_dict rex) = Ok diet_request /\
    care_prompt E (pet_info_dict rex) = Ok care_request /\
    exists errors rest,
      trace (snd run) = trace rex_world ++
        [ StSpinner "Generating comprehensive care guide...";
          GroqCreate (chat_request diet_request) ] ++ errors ++
        [ GroqCreate (chat_request care_request) ] ++ rest /\
      (errors = [] \/ exists msg, errors = [StError msg]).
Proof.
  intros E run. eexists _, _.
  split; [reflexivity|]. split; [reflexivity|].
  apply (care_tab_sends_both_requests E rex_loc (pet_info_dict rex) _ _
           rex_world (snd run) (fst run)).
  - reflexivity.
  - reflexivity.
  - reflexivity.
  - intros e H. injection H as <-. reflexivity.
  - apply surjective_pairing.
Defined.

(** A log file of zero bytes, and a log file that holds an object. *)
Lemma save_pet_data_failure_modes_witness :
  let E := sample_env api_up in
  (exists e,
     save_pet_data E rex_loc (rex_world_with_text "") = (Raise e, rex_world_with_text "") /\
     exn_cls e = JSONDecodeError) /\
  (exists e w',
     save_pet_data E rex_loc (rex_world_with_log (VDict [])) = (Raise e, w') /\
     exn_cls e = AttributeError /\
     heap w' = <[rex_loc := dict_set "timestamp"
                              (VStr (stamp E (rex_world_with_log (VDict []))))
                              (pet_info_dict rex)]>
                 (heap (rex_world_with_log (VDict []))) /\
     files w' = files (rex_world_with_log (VDict [])) /\
     trace w' = trace (rex_world_with_log (VDict []))).
Proof.
  split.
  - apply (proj1 (save_pet_data_failure_modes (sample_env api_up) rex_loc (pet_info_dict rex)
                    (rex_world_with_text "") eq_refl) "").
    reflexivity.
  - apply (proj2 (save_pet_data_failure_modes (sample_env api_up) rex_loc (pet_info_dict rex)
                    (rex_world_with_log (VDict [])) eq_refl) (VDict [])).
    + reflexivity.
    + discriminate.
Defined.

(** Rex's form with no button pressed, from a fresh start. *)
Lemma main_without_buttons_only_displays_witness :
  let E := sample_env api_up in
  idle fresh_world (snd (main E rex_form_idle fresh_world)).
Proof.
  apply (main_without_buttons_only_displays (sample_env api_up) rex_form_idle fresh_world
           (snd (main (sample_env api_up) rex_form_idle fresh_world))
           (fst (main (sample_env api_up) rex_form_idle fresh_world)));
    reflexivity.
Defined.

(** The report for Rex with two sections has thirteen flowables. *)
Lemma create_pdf_needs_its_keys_witness :
  let E := sample_env api_up in
  let recommendations :=
    [ ("Diet Recommendations", "Feed 300 g twice a day.");
      ("Care Recommendations", "Walk 45 minutes a day.") ] in
  exists story,
    create_pdf E rex_loc recommendations rex_world =
      (Ok (doc_build E story), log_event (DocBuild story) (after_clock_read rex_world)) /\
    length story = 7 + 3 * length recommendations.
Proof.
  intros E recommendations.
  destruct (create_pdf_needs_its_keys E rex_loc (pet_info_dict rex) recommendations
              rex_world eq_refl)
    as (story & Hlength & Hrun).
  exists story. split; [|exact Hlength].
  destruct (story_accepted E story); [exact Hrun|].
  destruct Hrun as (e & w' & Hraise & _).
  vm_compute in Hraise. discriminate Hraise.
Defined.

(** Both calls answer, and the log file has zero bytes. *)
Lemma care_tab_raises_after_display_on_bad_log_witness :
  let E := sample_env api_up in
  let w := rex_world_with_text "" in
  let w0 := log_event (StSpinner "Generating comprehensive care guide...") w in
  let w1 := snd (generate_diet_recommendation E rex_loc w0) in
  let w2 := snd (generate_care_recommendation E rex_loc w1) in
  exists summary,
    pet_info_text E (pet_info_dict rex) = Ok summary /\
    let story :=
      report_story E (VStr "Rex") summary
        [ ("Diet Recommendations", "Feed 300 g twice a day.");
          ("Care Recommendations", "Walk 45 minutes a day.") ] (stamp E w2) in
    story_accepted E story = true /\
    exists e w3,
    care_tab E true rex_loc w = (Raise e, w3) /\
    exn_cls e = JSONDecodeError /\
    trace w3 = trace w2 ++
      [ StHeader "🍽️ Diet Recommendations";
        StMarkdown "Feed 300 g twice a day." false;
        StHeader "💝 Care Recommendations";
        StMarkdown "Walk 45 minutes a day." false;
        DocBuild story;
        StMarkdown (get_download_link E (doc_build E story)) true ] /\
    files w3 = files w /\
    heap w3 = heap w.
Proof.
  intros E w w0 w1 w2.
  eexists. split; [reflexivity|].
  intros story. split; [vm_compute; reflexivity|].
  apply (care_tab_raises_after_display_on_bad_log E rex rex_loc w w1 w2 ""
           "Feed 300 g twice a day." "Walk 45 minutes a day." _).
  - reflexivity.
  - reflexivity.
  - vm_compute. reflexivity.
  - vm_compute. reflexivity.
  - discriminate.
  - discriminate.
  - reflexivity.
  - vm_compute. reflexivity.
Defined.

(** The diet answer opens a tag and never closes it: the texts are shown,
    then the report's paragraph is refused; nothing is built or saved. *)
Lemma care_tab_raises_after_display_on_refused_markup_witness :
  let E := sample_env api_unclosed_tag in
  let w0 := log_event (StSpinner "Generating comprehensive care guide...") rex_world in
  let w1 := snd (generate_diet_recommendation E rex_loc w0) in
  let w2 := snd (generate_care_recommendation E rex_loc w1) in
  exists summary,
    pet_info_text E (pet_info_dict rex) = Ok summary /\
    let story :=
      report_story E (VStr "Rex") summary
        [ ("Diet Recommendations", "Feed <b>300 g twice a day.");
          ("Care Recommendations", "Walk 45 minutes a day.") ] (stamp E w2) in
    story_accepted E story = false /\
    exists e w3,
    care_tab E true rex_loc rex_world = (Raise e, w3) /\
    exn_cls e = ValueError /\
    trace w3 = trace w2 ++
      [ StHeader "🍽️ Diet Recommendations";
        StMarkdown "Feed <b>300 g twice a day." false;
        StHeader "💝 Care Recommendations";
        StMarkdown "Walk 45 minutes a day." false ] /\
    files w3 = files rex_world /\
    heap w3 = heap rex_world.
Proof.
  intros E w0 w1 w2.
  eexists. split; [reflexivity|].
  intros story. split; [vm_compute; reflexivity|].
  eapply (care_tab_raises_after_display_on_refused_markup E rex rex_loc rex_world w1 w2
            "Feed <b>300 g twice a day." "Walk 45 minutes a day.").
  - reflexivity.
  - vm_compute. reflexivity.
  - vm_compute. reflexivity.
  - discriminate.
  - discriminate.
  - reflexivity.
  - vm_compute. reflexivity.
Defined.
